(** * Data insights generator: a shallow embedding of [insights_generator.py]

    The script loads a CSV file into a list of records (Python dicts from
    column name to cell text), classifies columns as numeric, computes
    per-column statistics, counts missing cells, finds the most frequent value
    of the first non-numeric column and writes a fixed-layout text report.

    Modelling conventions.
    - A Python [str] is a [string]; a character stands for the code point of
      the same number, which covers the code points below 256.
    - A Python [dict] is an association list in insertion order with
      first-match lookup; [Dict.set] overwrites in place or appends, as
      insertion-ordered dicts do.
    - A Python [float] is a primitive binary64 [float]; arithmetic and
      comparisons are the IEEE 754 ones.
    - A Python [int] that counts something is a [nat].
    - The builtins the script calls but does not define ([float] on a string,
      float formatting, [csv.DictReader]) form the interface [PyRuntime].
    - A record holds the cells under the column names.  The list that
      [csv.DictReader] stores under the key [None] for a row with more fields
      than the header is kept beside the row ([row_rest]): no operation looks
      that key up except through the keys of the first record, where
      [detect_numeric_columns] raises [AttributeError] on it, which [main]
      models as an uncaught exception.
    - A file holds text: the bytes of a file that exists decode as UTF-8. *)

From Stdlib Require Import ZArith List String Ascii Bool Lia Floats.
From Stdlib Require Import DecimalString.
From Stdlib Require Import Permutation.
Import ListNotations.

Local Open Scope list_scope.
Local Open Scope string_scope.

(** [l.append(x)] *)
Definition push {A : Type} (l : list A) (x : A) : list A := (l ++ [x])%list.

(** ** Strings *)

Module PyStr.

(** [str.isspace] on one character: the whitespace code points below 256. *)
Definition isspace (c : ascii) : bool :=
  let n := nat_of_ascii c in
  ((9 <=? n) && (n <=? 13) || (28 <=? n) && (n <=? 32) || (n =? 133) || (n =? 160))%nat.

Fixpoint lstrip (s : string) : string :=
  match s with
  | EmptyString => EmptyString
  | String c s' => if isspace c then lstrip s' else s
  end.

Fixpoint rstrip (s : string) : string :=
  match s with
  | EmptyString => EmptyString
  | String c s' =>
      match rstrip s' with
      | EmptyString => if isspace c then EmptyString else String c EmptyString
      | t => String c t
      end
  end.

(** [s.strip()] *)
Definition strip (s : string) : string := rstrip (lstrip s).

(** [sep.join(lines)] *)
Fixpoint join (sep : string) (lines : list string) : string :=
  match lines with
  | [] => ""
  | [l] => l
  | l :: rest => l ++ sep ++ join sep rest
  end.

(** [s * n] *)
Fixpoint mul (s : string) (n : nat) : string :=
  match n with
  | O => ""
  | S n' => s ++ mul s n'
  end.

(** [str(n)] for a non-negative [int]. *)
Definition of_nat (n : nat) : string := NilEmpty.string_of_uint (Nat.to_uint n).

(** [s.startswith(p)] *)
Definition startswith (p s : string) : bool := String.prefix p s.

(** [s.endswith(ch)] for a single character [ch], and ["/" in s] *)
Fixpoint ends_with (ch : ascii) (s : string) : bool :=
  match s with
  | EmptyString => false
  | String c EmptyString => Ascii.eqb c ch
  | String _ s' => ends_with ch s'
  end.

Fixpoint has_slash (s : string) : bool :=
  match s with
  | EmptyString => false
  | String c s' => Ascii.eqb c "/" || has_slash s'
  end.

(** Every character of [s] is whitespace. *)
Fixpoint all_space (s : string) : bool :=
  match s with
  | EmptyString => true
  | String c s' => isspace c && all_space s'
  end.

End PyStr.

(** ** Insertion-ordered dictionaries *)

Module Dict.

Definition t (V : Type) : Type := list (string * V).

(** [d.get(k)] *)
Fixpoint get {V : Type} (d : t V) (k : string) : option V :=
  match d with
  | [] => None
  | (k', v) :: rest => if String.eqb k' k then Some v else get rest k
  end.

(** [d.get(k, dflt)] *)
Definition get_default {V : Type} (d : t V) (k : string) (dflt : V) : V :=
  match get d k with
  | Some v => v
  | None => dflt
  end.

(** [d[k] = v]: an existing key keeps its position, a new key goes last. *)
Fixpoint set {V : Type} (d : t V) (k : string) (v : V) : t V :=
  match d with
  | [] => [(k, v)]
  | (k', v') :: rest =>
      if String.eqb k' k then (k', v) :: rest else (k', v') :: set rest k v
  end.

(** [d.keys()] and [d.items()] in iteration order. *)
Definition keys {V : Type} (d : t V) : list string := map fst d.
Definition items {V : Type} (d : t V) : list (string * V) := d.

End Dict.

(** [c in cols] for a list of strings. *)
Definition str_in (c : string) (cols : list string) : bool :=
  existsb (String.eqb c) cols.

(** ** Floats *)

Module PyFloat.

(** [sum(vals)]: the running total starts at 0 and adds the items left to
    right, as CPython does up to version 3.11.  Later versions also carry a
    correction term for the rounding errors; it changes none of the sums
    computed on the sample data below. *)
Definition sum (vals : list float) : float :=
  fold_left PrimFloat.add vals 0%float.

(** [min(vals)] and [max(vals)] on a non-empty list [x :: xs]: the first item
    is kept until a later one compares strictly below (above) it. *)
Definition min (x : float) (xs : list float) : float :=
  fold_left (fun best v => if PrimFloat.ltb v best then v else best) xs x.

Definition max (x : float) (xs : list float) : float :=
  fold_left (fun best v => if PrimFloat.ltb best v then v else best) xs x.

(** [float(n)] for a length [n]; exact below 2^53. *)
Definition of_len (n : nat) : float :=
  PrimFloat.of_uint63 (Uint63.of_Z (Z.of_nat n)).

End PyFloat.

(** The statistics dict of [basic_stats], with its four fixed keys.  The
    source stores [count] as [float(len(vals))] and prints [int(s['count'])];
    both conversions are exact for every length below 2^53, so the field keeps
    the length itself. *)
Module Stats.
Record t : Type := mk { avg : float; min : float; max : float; count : nat }.
End Stats.

(** ** The builtins used by the script *)

(** One dict of [csv.DictReader]: the fields under the column names, [None]
    being the reader's filler for a missing trailing field, and the list the
    reader stores under the key [None] when the row has more fields than the
    header. *)
Record csv_row : Type := mkRow {
  row_fields : Dict.t (option string);
  row_rest : option (list string)
}.

Class PyRuntime : Type := {
  (** [float(v)]: [None] stands for [ValueError]. *)
  float_of_str : string -> option float;
  (** [f"{x:.2f}"] *)
  format_2f : float -> string;
  (** [f"{x}"], that is [str(x)] *)
  float_str : float -> string;
  (** [csv.DictReader] iterated over the text of a file: the exception the
      reader raises on the way ([inr], for instance [csv.Error]), or one row
      per data line. *)
  csv_rows : string -> list csv_row + string
}.

(** The dicts of the reader without their entry under [None]: one per data
    row, [None] being the reader's filler for a missing trailing field. *)
Definition csv_DictReader {R : PyRuntime} (text : string)
    : list (Dict.t (option string)) :=
  match csv_rows text with
  | inl rows => map row_fields rows
  | inr _ => []
  end.

(** ** The pipeline *)

Definition record : Type := Dict.t string.

Section Pipeline.

Context {R : PyRuntime}.

(** [load_csv], on the text of the file: the loaded records without the
    entry a record has under [None] when its row had surplus fields. *)
Definition load_csv (text : string) : list record :=
  map (map (fun kv : string * option string =>
              (fst kv, match snd kv with Some v => v | None => "" end)))
      (csv_DictReader text).

(** The stripped cell of column [c] in record [r]: [r.get(c, "").strip()]. *)
Definition cell (r : record) (c : string) : string :=
  PyStr.strip (Dict.get_default r c "").

(** Inner loop of [detect_numeric_columns]: [false] is the [break] with
    [ok = False]. *)
Fixpoint column_ok (c : string) (rows : list record) : bool :=
  match rows with
  | [] => true
  | r :: rest =>
      let v := cell r c in
      if String.eqb v "" then column_ok c rest
      else match float_of_str v with
           | Some _ => column_ok c rest
           | None => false
           end
  end.

(** Outer loop of [detect_numeric_columns], [numeric] being the list built so
    far. *)
Fixpoint numeric_loop (cols : list string) (rows : list record)
    (numeric : list string) : list string :=
  match cols with
  | [] => numeric
  | c :: cs =>
      numeric_loop cs rows (if column_ok c rows then push numeric c else numeric)
  end.

Definition detect_numeric_columns (rows : list record) : list string :=
  match rows with
  | [] => []
  | r0 :: _ => numeric_loop (Dict.keys r0) rows []
  end.

(** Loop of [basic_stats], [vals] being the list built so far. *)
Fixpoint collect_vals (col : string) (rows : list record) (vals : list float)
    : list float :=
  match rows with
  | [] => vals
  | r :: rest =>
      let v := cell r col in
      if String.eqb v "" then collect_vals col rest vals
      else match float_of_str v with
           | Some x => collect_vals col rest (push vals x)
           | None => collect_vals col rest vals
           end
  end.

Definition basic_stats (rows : list record) (col : string) : option Stats.t :=
  match collect_vals col rows [] with
  | [] => None
  | x :: xs =>
      let vals := x :: xs in
      Some {| Stats.avg := PrimFloat.div (PyFloat.sum vals)
                                         (PyFloat.of_len (List.length vals));
              Stats.min := PyFloat.min x xs;
              Stats.max := PyFloat.max x xs;
              Stats.count := List.length vals |}
  end.

(** Inner loop of [missing_values]. *)
Fixpoint count_missing (c : string) (rows : list record) (cnt : nat) : nat :=
  match rows with
  | [] => cnt
  | r :: rest =>
      count_missing c rest (if String.eqb (cell r c) "" then cnt + 1 else cnt)
  end.

(** Outer loop of [missing_values]. *)
Fixpoint missing_loop (cols : list string) (rows : list record)
    (out : Dict.t nat) : Dict.t nat :=
  match cols with
  | [] => out
  | c :: cs =>
      let cnt := count_missing c rows 0 in
      missing_loop cs rows (if (0 <? cnt)%nat then Dict.set out c cnt else out)
  end.

Definition missing_values (rows : list record) : Dict.t nat :=
  match rows with
  | [] => []
  | r0 :: _ => missing_loop (Dict.keys r0) rows []
  end.

(** Loop of [first_categorical_column]. *)
Fixpoint first_not_in (cols : list string) (numeric_cols : list string)
    : option string :=
  match cols with
  | [] => None
  | c :: cs => if negb (str_in c numeric_cols) then Some c
               else first_not_in cs numeric_cols
  end.

Definition first_categorical_column (rows : list record)
    (numeric_cols : list string) : option string :=
  match rows with
  | [] => None
  | r0 :: _ => first_not_in (Dict.keys r0) numeric_cols
  end.

(** Loop of [most_frequent]. *)
Fixpoint freq_loop (col : string) (rows : list record) (freq : Dict.t nat)
    : Dict.t nat :=
  match rows with
  | [] => freq
  | r :: rest =>
      let v := cell r col in
      if String.eqb v "" then freq_loop col rest freq
      else freq_loop col rest (Dict.set freq v (Dict.get_default freq v 0 + 1))
  end.

(** [max(freq, key=freq.get)] on a non-empty dict whose first key is [k0]:
    a later key replaces the best one when its count is strictly greater. *)
Definition max_key (freq : Dict.t nat) (k0 : string) (ks : list string) : string :=
  fold_left (fun best k =>
               if (Dict.get_default freq best 0 <? Dict.get_default freq k 0)%nat
               then k else best) ks k0.

Definition most_frequent (rows : list record) (col : string)
    : option (string * nat) :=
  let freq := freq_loop col rows [] in
  match Dict.keys freq with
  | [] => None
  | k0 :: ks =>
      let k := max_key freq k0 ks in
      match Dict.get freq k with
      | Some n => Some (k, n)
      | None => None
      end
  end.

(** *** The report *)

(** Truth value of an optional string: [None] and [""] are false. *)
Definition truthy (o : option string) : bool :=
  match o with
  | Some s => negb (String.eqb s "")
  | None => false
  end.

Definition divider : string := PyStr.mul "-" 32.

(** One line of the numeric summary. *)
Definition stats_line (c : string) (s : Stats.t) : string :=
  "  " ++ c ++ ": avg=" ++ format_2f (Stats.avg s)
       ++ ", min=" ++ float_str (Stats.min s)
       ++ ", max=" ++ float_str (Stats.max s)
       ++ " (n=" ++ PyStr.of_nat (Stats.count s) ++ ")".

(** The loop over [numeric_cols] in [write_report]; a column without stats is
    skipped by [continue]. *)
Fixpoint numeric_lines (numeric_cols : list string) (stats_map : Dict.t Stats.t)
    (lines : list string) : list string :=
  match numeric_cols with
  | [] => lines
  | c :: cs =>
      match Dict.get stats_map c with
      | None => numeric_lines cs stats_map lines
      | Some s => numeric_lines cs stats_map (push lines (stats_line c s))
      end
  end.

(** The loop over [missing.items()] in [write_report]. *)
Fixpoint missing_lines (items : list (string * nat)) (lines : list string)
    : list string :=
  match items with
  | [] => lines
  | (c, n) :: rest =>
      missing_lines rest (push lines ("  " ++ c ++ ": " ++ PyStr.of_nat n))
  end.

(** The list [lines] of [write_report] when the function reaches its
    [with open] statement. *)
Definition report_lines (file_name : string) (rows_count : nat)
    (numeric_cols : list string) (stats_map : Dict.t Stats.t)
    (cat_col : option string) (cat_top : option (string * nat))
    (missing : Dict.t nat) : list string :=
  let lines := [] in
  let lines := push lines "DATA INSIGHTS REPORT" in
  let lines := push lines divider in
  let lines := push lines ("Source file: " ++ file_name) in
  let lines := push lines ("Total rows: " ++ PyStr.of_nat rows_count) in
  let lines := push lines "" in
  let lines :=
    match numeric_cols with
    | _ :: _ =>
        let lines := push lines "Numeric columns summary:" in
        let lines := numeric_lines numeric_cols stats_map lines in
        push lines ""
    | [] =>
        let lines := push lines "No numeric columns detected." in
        push lines ""
    end in
  let lines :=
    match cat_col, cat_top with
    | Some col, Some (value, n) =>
        if truthy cat_col then
          let lines := push lines ("Most frequent value in '" ++ col ++ "': "
                                     ++ value ++ " (" ++ PyStr.of_nat n
                                     ++ " occurrences)") in
          push lines ""
        else lines
    | Some col, None =>
        if truthy cat_col then
          let lines := push lines ("No frequent value computed for '" ++ col
                                     ++ "' (no non-empty values).") in
          push lines ""
        else lines
    | None, _ => lines
    end in
  let lines :=
    match missing with
    | _ :: _ =>
        let lines := push lines "Missing values:" in
        let lines := missing_lines (Dict.items missing) lines in
        push lines ""
    | [] => lines
    end in
  let lines := push lines "Notes:" in
  let lines :=
    match numeric_cols with
    | _ :: _ => push lines "- Numeric spread suggests basic variation present."
    | [] => lines
    end in
  let lines :=
    match cat_col, cat_top with
    | Some col, Some (value, _) =>
        if truthy cat_col then
          push lines ("- '" ++ col ++ "' has a dominant category: " ++ value ++ ".")
        else lines
    | _, _ => lines
    end in
  let lines :=
    match missing with
    | [] => push lines "- No missing values detected."
    | _ :: _ => lines
    end in
  push lines divider.

(** The text [write_report] hands to [f.write]. *)
Definition report_text (file_name : string) (rows_count : nat)
    (numeric_cols : list string) (stats_map : Dict.t Stats.t)
    (cat_col : option string) (cat_top : option (string * nat))
    (missing : Dict.t nat) : string :=
  PyStr.join (String "010" "")
    (report_lines file_name rows_count numeric_cols stats_map cat_col cat_top
                  missing).

(** *** The files and the console *)

Inductive node : Type :=
| File (content : string)
| Directory.

Definition filesystem : Type := string -> option node.

Record world : Type := mkWorld {
  fs : filesystem;
  console : list string
}.

(** How a call ends: it returns, or an exception leaves it uncaught. *)
Inductive outcome : Type :=
| Returned
| Raised (exn : string).

(** [print(line)] *)
Definition print (line : string) (w : world) : world :=
  {| fs := fs w; console := push (console w) line |}.

(** [os.path.exists(path)] *)
Definition path_exists (w : world) (path : string) : bool :=
  match fs w path with
  | Some _ => true
  | None => false
  end.

(** [open(path, "r")] followed by reading the whole text. *)
Definition read_file (w : world) (path : string) : string + string :=
  match fs w path with
  | Some (File content) => inl content
  | Some Directory => inr "IsADirectoryError"
  | None => inr "FileNotFoundError"
  end.

(** [open(path, "w")] followed by [f.write(text)]. *)
Definition write_file (w : world) (path text : string) : world + string :=
  match fs w path with
  | Some Directory => inr "IsADirectoryError"
  | _ => inl {| fs := fun p => if String.eqb p path then Some (File text)
                               else fs w p;
                console := console w |}
  end.

(** [os.path.join(a, b)] and [os.path.basename(p)] on POSIX paths. *)
Definition path_join (a b : string) : string :=
  if PyStr.startswith "/" b then b
  else if String.eqb a "" || PyStr.ends_with "/" a then a ++ b
  else a ++ "/" ++ b.

Fixpoint basename (p : string) : string :=
  match p with
  | EmptyString => EmptyString
  | String c p' =>
      if PyStr.has_slash p' then basename p'
      else if Ascii.eqb c "/" then p' else p
  end.

(** [write_report]: builds the text and writes it to [out_path]. *)
Definition write_report (w : world) (out_path file_name : string)
    (rows_count : nat) (numeric_cols : list string) (stats_map : Dict.t Stats.t)
    (cat_col : option string) (cat_top : option (string * nat))
    (missing : Dict.t nat) : world + string :=
  write_file w out_path
    (report_text file_name rows_count numeric_cols stats_map cat_col cat_top
                 missing).

(** The loop of [main] that fills [stats_map]. *)
Fixpoint stats_loop (rows : list record) (numeric_cols : list string)
    (stats_map : Dict.t Stats.t) : Dict.t Stats.t :=
  match numeric_cols with
  | [] => stats_map
  | c :: cs =>
      match basic_stats rows c with
      | Some s => stats_loop rows cs (Dict.set stats_map c s)
      | None => stats_loop rows cs stats_map
      end
  end.

(** The report text [main] computes from the loaded rows. *)
Definition pipeline_text (file_name : string) (rows : list record) : string :=
  let numeric_cols := detect_numeric_columns rows in
  let stats_map := stats_loop rows numeric_cols [] in
  let cat_col := first_categorical_column rows numeric_cols in
  let cat_top := if truthy cat_col
                 then match cat_col with
                      | Some col => most_frequent rows col
                      | None => None
                      end
                 else None in
  let missing := missing_values rows in
  report_text file_name (List.length rows) numeric_cols stats_map cat_col
              cat_top missing.

Definition csv_path (here : string) : string :=
  path_join (path_join here "data") "sales_data.csv".

Definition out_path (here : string) : string :=
  path_join here "sample_output.txt".

(** Whether the first record [load_csv] returns holds the key [None]: its row
    had more fields than the header. *)
Definition first_row_has_surplus (text : string) : bool :=
  match csv_rows text with
  | inl (row :: _) =>
      match row_rest row with
      | Some _ => true
      | None => false
      end
  | _ => false
  end.

(** [main], [here] being [os.path.dirname(__file__)].

    Two exceptions can leave the pipeline itself.  The reader may raise while
    [load_csv] iterates over it, before anything is printed.  And when the
    first record holds the key [None], the loop of [detect_numeric_columns]
    over [rows[0].keys()] reaches that key, [r.get(None, "")] is the list of
    surplus fields and [.strip()] raises [AttributeError]; with that key in
    later records only, no loop ever looks it up. *)
Definition main (here : string) (w : world) : world * outcome :=
  if negb (path_exists w (csv_path here)) then
    (print ("File not found: " ++ csv_path here) w, Returned)
  else
    match read_file w (csv_path here) with
    | inr exn => (w, Raised exn)
    | inl text =>
        match csv_rows text with
        | inr exn => (w, Raised exn)
        | inl _ =>
            let rows := load_csv text in
            let w := print ("Loaded " ++ PyStr.of_nat (List.length rows)
                                      ++ " rows.") w in
            if first_row_has_surplus text then (w, Raised "AttributeError")
            else
              let numeric_cols := detect_numeric_columns rows in
              let stats_map := stats_loop rows numeric_cols [] in
              let cat_col := first_categorical_column rows numeric_cols in
              let cat_top := if truthy cat_col
                             then match cat_col with
                                  | Some col => most_frequent rows col
                                  | None => None
                                  end
                             else None in
              let missing := missing_values rows in
              match write_report w (out_path here) (basename (csv_path here))
                      (List.length rows) numeric_cols stats_map cat_col cat_top
                      missing with
              | inr exn => (w, Raised exn)
              | inl w => (print ("Report written to: " ++ out_path here) w,
                          Returned)
              end
        end
    end.

(** The exit status of the process that runs [main]: an uncaught exception
    makes the interpreter exit with status 1. *)
Definition exit_status (o : outcome) : nat :=
  match o with
  | Returned => 0
  | Raised _ => 1
  end.

End Pipeline.

(** ** A model of the builtins

    Executable definitions of the four builtins, after CPython's behaviour, for
    running the pipeline on concrete datasets. *)

Module CPython.

Definition code (c : ascii) : nat := nat_of_ascii c.

Definition is_digit (c : ascii) : bool := ((48 <=? code c) && (code c <=? 57))%nat.

Definition digit_val (c : ascii) : Z := Z.of_nat (code c - 48).

(** Whitespace for [float]: the C locale's [isspace]. *)
Definition is_c_space (c : ascii) : bool :=
  ((9 <=? code c) && (code c <=? 13) || (code c =? 32))%nat.

Definition lower (c : ascii) : ascii :=
  if ((65 <=? code c) && (code c <=? 90))%nat then ascii_of_nat (code c + 32) else c.

Fixpoint map_str (f : ascii -> ascii) (s : string) : string :=
  match s with
  | EmptyString => EmptyString
  | String c s' => String (f c) (map_str f s')
  end.

(** [float] first turns each non-ASCII whitespace character into a space and
    every other non-ASCII character that is not a decimal digit into ['?']. *)
Definition to_ascii (c : ascii) : ascii :=
  if (code c <? 127)%nat then c
  else if PyStr.isspace c then " "%char else "?"%char.

Fixpoint ltrim (s : string) : string :=
  match s with
  | EmptyString => EmptyString
  | String c s' => if is_c_space c then ltrim s' else s
  end.

Fixpoint rtrim (s : string) : string :=
  match s with
  | EmptyString => EmptyString
  | String c s' =>
      match rtrim s' with
      | EmptyString => if is_c_space c then EmptyString else String c EmptyString
      | t => String c t
      end
  end.

(** An underscore is accepted only between two digits, and is then dropped;
    [prev] is the previous character of the input. *)
Fixpoint drop_underscores (prev : ascii) (s : string) : option string :=
  match s with
  | EmptyString => if Ascii.eqb prev "_" then None else Some EmptyString
  | String c s' =>
      if Ascii.eqb c "_" then
        if is_digit prev then drop_underscores c s' else None
      else if Ascii.eqb prev "_" && negb (is_digit c) then None
      else option_map (String c) (drop_underscores c s')
  end.

(** The longest prefix of digits, as the number read so far and the count of
    digits, and the rest of the string. *)
Fixpoint scan_digits (s : string) (acc : Z) (n : nat) : Z * nat * string :=
  match s with
  | String c s' =>
      if is_digit c then scan_digits s' (10 * acc + digit_val c)%Z (S n)
      else (acc, n, s)
  | EmptyString => (acc, n, s)
  end.

Definition scan_sign (s : string) : bool * string :=
  match s with
  | String "-" s' => (true, s')
  | String "+" s' => (false, s')
  | _ => (false, s)
  end.

(** The exponent part: empty, or [e] or [E], an optional sign and at least one
    digit, up to the end of the string. *)
Definition scan_exponent (s : string) : option Z :=
  match s with
  | EmptyString => Some 0%Z
  | String c s' =>
      if Ascii.eqb (lower c) "e" then
        let (neg, s'') := scan_sign s' in
        match scan_digits s'' 0 0 with
        | (_, O, _) => None
        | (e, S _, EmptyString) => Some (if neg then (- e)%Z else e)
        | (_, S _, String _ _) => None
        end
      else None
  end.

(** The binary64 value nearest to [m * 10^e] (ties to even), [m] positive. *)
Definition round_decimal (neg : bool) (m : positive) (e : Z) : float :=
  match e with
  | Zneg p =>
      let d := Z.pow_pos 10 p in
      let k := Z.max 0 (66 + Z.log2 d - Z.log2 (Zpos m)) in
      let num := Z.shiftl (Zpos m) k in
      let q := (num / d)%Z in
      let r := (num mod d)%Z in
      let loc := if (r =? 0)%Z then loc_Exact
                 else loc_Inexact (Z.compare (2 * r) d) in
      SF2Prim (binary_round_aux prec emax neg q (- k) loc)
  | _ =>
      SF2Prim (binary_round_aux prec emax neg (Zpos m * 10 ^ e) 0 loc_Exact)
  end.

Definition of_decimal (neg : bool) (m : Z) (e : Z) : float :=
  match m with
  | Zpos p => round_decimal neg p e
  | _ => if neg then PrimFloat.neg_zero else PrimFloat.zero
  end.

(** A number without sign: digits with an optional point and at least one
    digit, then the exponent part. *)
Definition parse_number (neg : bool) (s : string) : option float :=
  let '(ip, ni, s1) := scan_digits s 0 0 in
  let '(m, nf, s2) :=
    match s1 with
    | String "." s1' => let '(m, nd, s2) := scan_digits s1' ip ni in
                        (m, (nd - ni)%nat, s2)
    | _ => (ip, O, s1)
    end in
  match (ni + nf)%nat with
  | O => None
  | S _ =>
      match scan_exponent s2 with
      | Some e => Some (of_decimal neg m (e - Z.of_nat nf))
      | None => None
      end
  end.

Definition parse_signed (s : string) : option float :=
  let (neg, body) := scan_sign s in
  let word := map_str lower body in
  if String.eqb word "inf" || String.eqb word "infinity" then
    Some (if neg then PrimFloat.neg_infinity else PrimFloat.infinity)
  else if String.eqb word "nan" then Some PrimFloat.nan
  else parse_number neg body.

(** [float(s)] for a string [s]; [None] is [ValueError]. *)
Definition py_float (s : string) : option float :=
  match rtrim (ltrim (map_str to_ascii s)) with
  | EmptyString => None
  | String c t =>
      match drop_underscores "000" (String c t) with
      | Some u => parse_signed u
      | None => None
      end
  end.

(** *** Formatting floats *)

(** Decimal digits of a non-negative integer. *)
Definition dec (z : Z) : string := NilEmpty.string_of_uint (N.to_uint (Z.to_N z)).

(** The integer nearest to [m * 2^e * 10^k], ties to even. *)
Definition round_scaled (m : positive) (e k : Z) : Z :=
  let num := (Zpos m * 2 ^ Z.max e 0 * 10 ^ Z.max k 0)%Z in
  let den := (2 ^ Z.max (- e) 0 * 10 ^ Z.max (- k) 0)%Z in
  let q := (num / den)%Z in
  match Z.compare (2 * (num mod den)) den with
  | Lt => q
  | Gt => (q + 1)%Z
  | Eq => if Z.even q then q else (q + 1)%Z
  end.

Definition sign_str (neg : bool) : string := if neg then "-" else "".

(** [f"{x:.2f}"] *)
Definition py_format_2f (x : float) : string :=
  match Prim2SF x with
  | S754_nan => "nan"
  | S754_infinity neg => sign_str neg ++ "inf"
  | S754_zero neg => sign_str neg ++ "0.00"
  | S754_finite neg m e =>
      let n := round_scaled m e 2 in
      let frac := dec (n mod 100) in
      sign_str neg ++ dec (n / 100) ++ "."
        ++ (if (String.length frac <? 2)%nat then "0" ++ frac else frac)
  end.

(** [10^t <= m * 2^e] *)
Definition ge_pow10 (m : positive) (e t : Z) : bool :=
  (10 ^ Z.max t 0 * 2 ^ Z.max (- e) 0 <=? Zpos m * 2 ^ Z.max e 0 * 10 ^ Z.max (- t) 0)%Z.

(** The integer [t] with [10^t <= m * 2^e < 10^(t+1)], found next to an
    estimate from the binary logarithm. *)
Definition log10_floor (m : positive) (e : Z) : Z :=
  let t0 := ((Z.log2 (Zpos m) + e) * 30103 / 100000)%Z in
  if ge_pow10 m e (t0 + 2) then (t0 + 2)%Z
  else if ge_pow10 m e (t0 + 1) then (t0 + 1)%Z
  else if ge_pow10 m e t0 then t0
  else if ge_pow10 m e (t0 - 1) then (t0 - 1)%Z
  else (t0 - 2)%Z.

(** The integer part of [m * 2^e * 10^k]. *)
Definition floor_scaled (m : positive) (e k : Z) : Z :=
  let num := (Zpos m * 2 ^ Z.max e 0 * 10 ^ Z.max k 0)%Z in
  let den := (2 ^ Z.max (- e) 0 * 10 ^ Z.max (- k) 0)%Z in
  (num / den)%Z.

(** [n * 10^k] with [n] of [p] digits, a rounded-up [10^p] carried into the
    exponent. *)
Definition carry (p n k : Z) : Z * Z :=
  if (n =? 10 ^ p)%Z then ((10 ^ (p - 1))%Z, (k + 1)%Z) else (n, k).

(** The two decimals of [p] significant digits next to [m * 2^e], the nearest
    one first (on a tie the even one). *)
Definition decimal_candidates (m : positive) (e p : Z) : (Z * Z) * (Z * Z) :=
  let k := (log10_floor m e - (p - 1))%Z in
  let lo := floor_scaled m e (- k) in
  let n := round_scaled m e (- k) in
  let other := if (n =? lo)%Z then (lo + 1)%Z else lo in
  (carry p n k, carry p other k).

(** [n * 10^k] reads back as [m * 2^e]. *)
Definition reads_back (m : positive) (e : Z) (d : Z * Z) : bool :=
  PrimFloat.Leibniz.eqb (of_decimal false (fst d) (snd d))
                        (SF2Prim (S754_finite false m e)).

(** The shortest decimal that reads back as [m * 2^e], and among those of
    that length the nearest: the decimals of [p], [p + 1], ... digits on
    either side of the number are tried in turn (below a power of two the
    floats lie closer together than above it, so the nearest decimal may
    fail where the one on the other side reads back); 17 digits always
    suffice. *)
Fixpoint shortest_decimal (m : positive) (e : Z) (fuel : nat) (p : Z) : Z * Z :=
  let (near, far) := decimal_candidates m e p in
  match fuel with
  | O => near
  | S fuel' =>
      if reads_back m e near then near
      else if reads_back m e far then far
      else shortest_decimal m e fuel' (p + 1)
  end.

Fixpoint zeros (n : nat) : string :=
  match n with
  | O => ""
  | S n' => String "0" (zeros n')
  end.

(** The digits [ds] with the decimal point after the first [decpt] of them, in
    the layout of [repr]: an exponent when [decpt] is below -3 or above 16. *)
Definition layout_repr (ds : string) (decpt : Z) : string :=
  let n := Z.of_nat (String.length ds) in
  if ((decpt <=? -4) || (16 <? decpt))%Z then
    let x := (decpt - 1)%Z in
    let xs := dec (Z.abs x) in
    String.substring 0 1 ds
      ++ (if (1 <? n)%Z then "." ++ String.substring 1 (String.length ds - 1) ds
          else "")
      ++ "e" ++ (if (x <? 0)%Z then "-" else "+")
      ++ (if (String.length xs <? 2)%nat then "0" ++ xs else xs)
  else if (decpt <=? 0)%Z then "0." ++ zeros (Z.to_nat (- decpt)) ++ ds
  else if (n <=? decpt)%Z then ds ++ zeros (Z.to_nat (decpt - n)) ++ ".0"
  else String.substring 0 (Z.to_nat decpt) ds ++ "."
         ++ String.substring (Z.to_nat decpt) (String.length ds - Z.to_nat decpt) ds.

(** [str(x)] *)
Definition py_float_str (x : float) : string :=
  match Prim2SF x with
  | S754_nan => "nan"
  | S754_infinity neg => sign_str neg ++ "inf"
  | S754_zero neg => sign_str neg ++ "0.0"
  | S754_finite neg m e =>
      let (n, k) := shortest_decimal m e 16 1 in
      let ds := dec n in
      sign_str neg ++ layout_repr ds (k + Z.of_nat (String.length ds))
  end.

(** *** Reading CSV text

    [csv.DictReader] for text without quote characters or carriage returns
    whose fields stay below the reader's size limit, the first line being the
    header: lines end at a newline, fields at a comma, blank lines are
    skipped, a missing trailing field is [None] and the fields beyond the
    header are kept as a list. *)

Fixpoint split_on (sep : ascii) (s : string) : list string :=
  match s with
  | EmptyString => [EmptyString]
  | String c s' =>
      if Ascii.eqb c sep then EmptyString :: split_on sep s'
      else match split_on sep s' with
           | [] => [String c EmptyString]
           | f :: fs => String c f :: fs
           end
  end.

Definition fields (line : string) : list string :=
  if String.eqb line "" then [] else split_on "," line.

(** [dict(zip(fieldnames, row))], then the filler for the names left over. *)
Fixpoint zip_row (names row : list string) (d : Dict.t (option string))
  : Dict.t (option string) :=
  match names, row with
  | [], _ => d
  | name :: names', [] => zip_row names' [] (Dict.set d name None)
  | name :: names', v :: row' => zip_row names' row' (Dict.set d name (Some v))
  end.

(** [row[len(fieldnames):]] when the row is longer than the header. *)
Definition surplus (names row : list string) : option (list string) :=
  if (List.length names <? List.length row)%nat
  then Some (skipn (List.length names) row)
  else None.

Definition plain_rows (text : string) : list csv_row + string :=
  match split_on "010" text with
  | [] => inl []
  | header :: lines =>
      inl (map (fun line =>
                  {| row_fields := zip_row (fields header) (fields line) [];
                     row_rest := surplus (fields header) (fields line) |})
               (filter (fun line => negb (String.eqb line "")) lines))
  end.

End CPython.

Definition cpython : PyRuntime := {|
  float_of_str := CPython.py_float;
  format_2f := CPython.py_format_2f;
  float_str := CPython.py_float_str;
  csv_rows := CPython.plain_rows
|}.

(** ** Specification-level notions

    Declarative counterparts of the loops above, used to state what the
    operations compute. *)

Section Specification.

Context {R : PyRuntime}.

(** [float] accepts the text [v]. *)
Definition parses (v : string) : bool :=
  match float_of_str v with
  | Some _ => true
  | None => false
  end.

(** The number a cell contributes: none when the stripped cell is empty or
    [float] rejects it. *)
Definition cell_value (r : record) (c : string) : option float :=
  if String.eqb (cell r c) "" then None else float_of_str (cell r c).

(** The numbers of column [c], in record order. *)
Definition parsed_values (c : string) (rows : list record) : list float :=
  flat_map (fun r => match cell_value r c with
                     | Some x => [x]
                     | None => []
                     end) rows.

(** Every cell of column [c] that is not empty once stripped is accepted by
    [float]. *)
Definition is_numeric_column (rows : list record) (c : string) : bool :=
  forallb (fun r => String.eqb (cell r c) "" || parses (cell r c)) rows.

(** The number of records whose stripped cell of column [c] is empty. *)
Definition blank_count (c : string) (rows : list record) : nat :=
  List.length (filter (fun r => String.eqb (cell r c) "") rows).

(** The cell of column [c] as stored, before any stripping. *)
Definition raw_cell (r : record) (c : string) : string :=
  Dict.get_default r c "".

(** The number of records whose cell of column [c] is the empty string. *)
Definition empty_string_count (c : string) (rows : list record) : nat :=
  List.length (filter (fun r => String.eqb (raw_cell r c) "") rows).

(** The classification in the words of the specification: every cell of
    column [c] that is not the empty string is accepted by [float]. *)
Definition every_nonempty_cell_parses (rows : list record) (c : string) : bool :=
  forallb (fun r => String.eqb (raw_cell r c) "" || parses (raw_cell r c)) rows.

(** The summary lines of the report: one per numeric column that has
    statistics. *)
Definition summary_lines (numeric_cols : list string)
    (stats_map : Dict.t Stats.t) : list string :=
  flat_map (fun c => match Dict.get stats_map c with
                     | Some s => [stats_line c s]
                     | None => []
                     end) numeric_cols.

(** The sections of the report, in the order [write_report] emits them. *)
Definition heading_section (file_name : string) (rows_count : nat) : list string :=
  [ "DATA INSIGHTS REPORT"; divider; "Source file: " ++ file_name;
    "Total rows: " ++ PyStr.of_nat rows_count; "" ].

Definition numeric_section (numeric_cols : list string)
    (stats_map : Dict.t Stats.t) : list string :=
  match numeric_cols with
  | [] => [ "No numeric columns detected."; "" ]
  | _ :: _ =>
      ("Numeric columns summary:" :: summary_lines numeric_cols stats_map
         ++ [ "" ])%list
  end.

Definition categorical_section (cat_col : option string)
    (cat_top : option (string * nat)) : list string :=
  match cat_col with
  | Some col =>
      if truthy cat_col then
        match cat_top with
        | Some (value, n) =>
            [ "Most frequent value in '" ++ col ++ "': " ++ value ++ " ("
                ++ PyStr.of_nat n ++ " occurrences)"; "" ]
        | None =>
            [ "No frequent value computed for '" ++ col
                ++ "' (no non-empty values)."; "" ]
        end
      else []
  | None => []
  end.

(** One line of the missing-values section. *)
Definition missing_line (cn : string * nat) : string :=
  "  " ++ fst cn ++ ": " ++ PyStr.of_nat (snd cn).

Definition missing_section (missing : Dict.t nat) : list string :=
  match missing with
  | [] => []
  | _ :: _ => ("Missing values:" :: map missing_line missing ++ [ "" ])%list
  end.

(** The note on the dominant category, present when the categorical section
    reports a value. *)
Definition dominant_note (cat_col : option string)
    (cat_top : option (string * nat)) : list string :=
  match cat_col, cat_top with
  | Some col, Some (value, _) =>
      if truthy cat_col
      then [ "- '" ++ col ++ "' has a dominant category: " ++ value ++ "." ]
      else []
  | _, _ => []
  end.

Definition notes_section (numeric_cols : list string) (cat_col : option string)
    (cat_top : option (string * nat)) (missing : Dict.t nat) : list string :=
  ("Notes:"
     :: (match numeric_cols with
         | [] => []
         | _ :: _ => [ "- Numeric spread suggests basic variation present." ]
         end)
     ++ dominant_note cat_col cat_top
     ++ (match missing with
         | [] => [ "- No missing values detected." ]
         | _ :: _ => []
         end)
     ++ [ divider ])%list.

End Specification.

(** Two lists of records agree on the columns that satisfy [P] when they have
    the same length and, pair by pair, the same stripped cells there. *)
Definition agree_on (P : string -> Prop) (rows rows' : list record) : Prop :=
  Forall2 (fun r r' => forall c, P c -> cell r c = cell r' c) rows rows'.

(** The dataset with [f] applied to every cell. *)
Definition map_cells (f : string -> string) (rows : list record) : list record :=
  map (map (fun kv : string * string => (fst kv, f (snd kv)))) rows.

(** A cell made of whitespace only becomes the empty cell. *)
Definition blank_whitespace (v : string) : string :=
  if PyStr.all_space v then "" else v.

(** A line of the categorical section or the dominant-category note. *)
Definition categorical_line (line : string) : bool :=
  PyStr.startswith "Most frequent value in '" line
  || PyStr.startswith "No frequent value computed for '" line
  || PyStr.startswith "- '" line.

(** No value of the list is a NaN. *)
Definition nan_free (vals : list float) : Prop :=
  forall v, In v vals -> PrimFloat.is_nan v = false.

(** ** Sample data *)

Definition nl : string := String "010" "".

(** The scenario of three sales records. *)
Definition sales_rows : list record :=
  [ [("region", "east"); ("amount", "10")];
    [("region", "west"); ("amount", "20")];
    [("region", "east"); ("amount", "")] ].

Definition sales_csv : string :=
  "region,amount" ++ nl ++ "east,10" ++ nl ++ "west,20" ++ nl ++ "east," ++ nl.

(** A column whose only cell is one space. *)
Definition space_rows : list record := [ [("a", " ")] ].

(** Three records with the same amount. *)
Definition tenth_rows : list record :=
  [ [("amount", "0.1")]; [("amount", "0.1")]; [("amount", "0.1")] ].

(** A world whose only file is the sales data next to the script in [/app]. *)
Definition sales_world : world :=
  {| fs := fun p => if String.eqb p "/app/data/sales_data.csv"
                    then Some (File sales_csv) else None;
     console := [] |}.

Definition empty_world : world := {| fs := fun _ => None; console := [] |}.

(** A world whose only file is the input, holding [text]. *)
Definition world_with (text : string) : world :=
  {| fs := fun p => if String.eqb p "/app/data/sales_data.csv"
                    then Some (File text) else None;
     console := [] |}.

(** The same input file in a world that already holds an old report, another
    file and some console output. *)
Definition busy_world : world :=
  {| fs := fun p => if String.eqb p "/app/data/sales_data.csv"
                    then Some (File sales_csv)
                    else if String.eqb p "/app/sample_output.txt"
                    then Some (File "old report")
                    else if String.eqb p "/app/notes.txt"
                    then Some (File "remember the milk")
                    else None;
     console := [ "earlier output" ] |}.

(** A column whose only cell is the text [nan]. *)
Definition nan_rows : list record := [ [("x", "nan")] ].

(** A column whose first value is not a number, followed by two numbers. *)
Definition nan_first_rows : list record :=
  [ [("x", "nan")]; [("x", "1")]; [("x", "2")] ].

(** Later records that differ outside the columns of the first record: the
    second list has a column [b] that the first record lacks. *)
Definition first_record : record := [("a", "1")].
Definition later_records : list record := [ [("a", "x")]; [] ].
Definition later_records_wider : list record :=
  [ [("a", "x"); ("b", "7")]; [("b", "8")] ].

(** The report for the three sales records. *)
Definition sales_report : string :=
  "DATA INSIGHTS REPORT" ++ nl
  ++ "--------------------------------" ++ nl
  ++ "Source file: sales_data.csv" ++ nl
  ++ "Total rows: 3" ++ nl
  ++ nl
  ++ "Numeric columns summary:" ++ nl
  ++ "  amount: avg=15.00, min=10.0, max=20.0 (n=2)" ++ nl
  ++ nl
  ++ "Most frequent value in 'region': east (2 occurrences)" ++ nl
  ++ nl
  ++ "Missing values:" ++ nl
  ++ "  amount: 1" ++ nl
  ++ nl
  ++ "Notes:" ++ nl
  ++ "- Numeric spread suggests basic variation present." ++ nl
  ++ "- 'region' has a dominant category: east." ++ nl
  ++ "--------------------------------".

(** The report for a file with a header and no rows. *)
Definition empty_report : string :=
  "DATA INSIGHTS REPORT" ++ nl
  ++ "--------------------------------" ++ nl
  ++ "Source file: sales_data.csv" ++ nl
  ++ "Total rows: 0" ++ nl
  ++ nl
  ++ "No numeric columns detected." ++ nl
  ++ nl
  ++ "Notes:" ++ nl
  ++ "- No missing values detected." ++ nl
  ++ "--------------------------------".

(** ** Further notions and samples *)

(** The number of records whose stripped cell of column [col] is [v]. *)
Definition occurrences (col v : string) (rows : list record) : nat :=
  List.length (filter (fun r => String.eqb (cell r col) v) rows).

Section Artifacts.

Context {R : PyRuntime}.

(** The number of records whose cell of column [c] is not empty once stripped
    and is rejected by [float]. *)
Definition rejected_count (c : string) (rows : list record) : nat :=
  List.length (filter (fun r => negb (String.eqb (cell r c) "")
                                && negb (parses (cell r c))) rows).

(** The list [lines] of [write_report] for the artifacts [main] computes from
    the loaded rows; [pipeline_text] is these lines joined by newlines. *)
Definition pipeline_lines (file_name : string) (rows : list record) : list string :=
  let numeric_cols := detect_numeric_columns rows in
  let stats_map := stats_loop rows numeric_cols [] in
  let cat_col := first_categorical_column rows numeric_cols in
  let cat_top := if truthy cat_col
                 then match cat_col with
                      | Some col => most_frequent rows col
                      | None => None
                      end
                 else None in
  let missing := missing_values rows in
  report_lines file_name (List.length rows) numeric_cols stats_map cat_col
               cat_top missing.

End Artifacts.

(** Four records whose two values occur twice each. *)
Definition tie_rows : list record :=
  [ [("v", "b")]; [("v", "a")]; [("v", " a ")]; [("v", "b")] ].

(** The sales records, first record apart, and the later ones swapped. *)
Definition sales_first : record := [("region", "east"); ("amount", "10")].
Definition sales_later : list record :=
  [ [("region", "west"); ("amount", "20")];
    [("region", "east"); ("amount", "")] ].
Definition sales_later_swapped : list record :=
  [ [("region", "east"); ("amount", "")];
    [("region", "west"); ("amount", "20")] ].

(** The sales data next to a directory that sits at the output path. *)
Definition blocked_world : world :=
  {| fs := fun p => if String.eqb p "/app/data/sales_data.csv"
                    then Some (File sales_csv)
                    else if String.eqb p "/app/sample_output.txt"
                    then Some Directory
                    else None;
     console := [] |}.

(** A column without a name next to a numeric one. *)
Definition unnamed_rows : list record :=
  [ [("", "east"); ("amount", "10")]; [("", "west"); ("amount", "20")] ].

(** * Properties *)

(** ** Stripping *)

Lemma rstrip_empty_iff (s : string) :
  PyStr.rstrip s = "" <-> PyStr.all_space s = true.
Proof.
  induction s as [|c s IH]; simpl.
  - tauto.
  - destruct (PyStr.rstrip s) eqn:E.
    + destruct (PyStr.isspace c); simpl.
      * rewrite <- IH. tauto.
      * split; discriminate.
    + split; [discriminate|].
      intros H. apply andb_true_iff in H. destruct H as [_ H].
      apply IH in H. discriminate.
Qed.

Lemma lstrip_empty_iff (s : string) :
  PyStr.lstrip s = "" <-> PyStr.all_space s = true.
Proof.
  induction s as [|c s IH]; simpl.
  - tauto.
  - destruct (PyStr.isspace c); simpl; [exact IH|].
    split; discriminate.
Qed.

Lemma lstrip_head (s : string) :
  match PyStr.lstrip s with
  | EmptyString => True
  | String c _ => PyStr.isspace c = false
  end.
Proof.
  induction s as [|c s IH]; simpl; [exact I|].
  destruct (PyStr.isspace c) eqn:E; [exact IH|exact E].
Qed.

Lemma strip_empty_iff (s : string) :
  PyStr.strip s = "" <-> PyStr.all_space s = true.
Proof.
  unfold PyStr.strip. rewrite rstrip_empty_iff, <- (lstrip_empty_iff s).
  split.
  - intros H. pose proof (lstrip_head s) as Hh.
    destruct (PyStr.lstrip s) as [|c t]; [reflexivity|].
    simpl in H. rewrite Hh in H. discriminate.
  - intros ->. reflexivity.
Qed.

Lemma rstrip_idempotent (s : string) :
  PyStr.rstrip (PyStr.rstrip s) = PyStr.rstrip s.
Proof.
  induction s as [|c s IH]; simpl; [reflexivity|].
  destruct (PyStr.rstrip s) as [|d t] eqn:E.
  - destruct (PyStr.isspace c) eqn:Ec; simpl; [reflexivity|].
    rewrite Ec. reflexivity.
  - simpl. simpl in IH. rewrite IH. reflexivity.
Qed.

Lemma rstrip_keeps_head (c : ascii) (s : string) :
  PyStr.isspace c = false ->
  exists t, PyStr.rstrip (String c s) = String c t.
Proof.
  intros Hc. simpl. destruct (PyStr.rstrip s) as [|d t].
  - rewrite Hc. eauto.
  - eauto.
Qed.

Lemma strip_idempotent (s : string) :
  PyStr.strip (PyStr.strip s) = PyStr.strip s.
Proof.
  unfold PyStr.strip.
  pose proof (lstrip_head s) as Hh.
  destruct (PyStr.lstrip s) as [|c t] eqn:E; [reflexivity|].
  destruct (rstrip_keeps_head c t Hh) as [u Hu].
  rewrite Hu. simpl PyStr.lstrip. rewrite Hh. rewrite <- Hu.
  apply rstrip_idempotent.
Qed.

Lemma strip_blank_whitespace (v : string) :
  PyStr.strip (blank_whitespace v) = PyStr.strip v.
Proof.
  unfold blank_whitespace. destruct (PyStr.all_space v) eqn:E; [|reflexivity].
  apply strip_empty_iff in E. rewrite E. reflexivity.
Qed.

(** ** Dictionaries *)

Lemma get_none_iff {V : Type} (d : Dict.t V) (k : string) :
  Dict.get d k = None <-> ~ In k (Dict.keys d).
Proof.
  induction d as [|[k' v] d IH]; simpl.
  - tauto.
  - destruct (String.eqb k' k) eqn:E.
    + apply String.eqb_eq in E. split; [discriminate|]. intros H. exfalso. auto.
    + apply String.eqb_neq in E. rewrite IH. tauto.
Qed.

Lemma get_some_in_keys {V : Type} (d : Dict.t V) (k : string) (v : V) :
  Dict.get d k = Some v -> In k (Dict.keys d).
Proof.
  intros H. destruct (in_dec string_dec k (Dict.keys d)) as [Hin|Hn]; [exact Hin|].
  apply get_none_iff in Hn. congruence.
Qed.

Lemma get_set {V : Type} (d : Dict.t V) (k k' : string) (v : V) :
  Dict.get (Dict.set d k v) k' = if String.eqb k k' then Some v else Dict.get d k'.
Proof.
  induction d as [|[k0 v0] d IH]; simpl.
  - reflexivity.
  - destruct (String.eqb k0 k) eqn:E; simpl.
    + apply String.eqb_eq in E. subst k0.
      destruct (String.eqb k k'); reflexivity.
    + destruct (String.eqb k0 k') eqn:E'.
      * apply String.eqb_eq in E'. subst k0.
        rewrite String.eqb_sym, E. reflexivity.
      * exact IH.
Qed.

Lemma keys_set {V : Type} (d : Dict.t V) (k x : string) (v : V) :
  In x (Dict.keys (Dict.set d k v)) <-> x = k \/ In x (Dict.keys d).
Proof.
  induction d as [|[k0 v0] d IH]; simpl.
  - intuition.
  - destruct (String.eqb k0 k) eqn:E; simpl.
    + apply String.eqb_eq in E. subst k0. intuition.
    + rewrite IH. intuition.
Qed.

Lemma get_map_values (f : string -> string) (r : record) (c : string) :
  Dict.get (map (fun kv : string * string => (fst kv, f (snd kv))) r) c
  = option_map f (Dict.get r c).
Proof.
  induction r as [|[k v] r IH]; simpl; [reflexivity|].
  destruct (String.eqb k c); [reflexivity|exact IH].
Qed.

Lemma keys_map_values (f : string -> string) (r : record) :
  Dict.keys (map (fun kv : string * string => (fst kv, f (snd kv))) r)
  = Dict.keys r.
Proof.
  unfold Dict.keys. rewrite map_map. reflexivity.
Qed.

Lemma str_in_iff (c : string) (cols : list string) :
  str_in c cols = true <-> In c cols.
Proof.
  unfold str_in. rewrite existsb_exists. split.
  - intros [x [Hx E]]. apply String.eqb_eq in E. subst. exact Hx.
  - intros H. exists c. split; [exact H|apply String.eqb_refl].
Qed.

Lemma in_set_items {V : Type} (d : Dict.t V) (k x : string) (v y : V) :
  In (x, y) (Dict.set d k v) -> (x, y) = (k, v) \/ In (x, y) d.
Proof.
  induction d as [|[k0 v0] d IH]; simpl.
  - intros [H|[]]. left. symmetry. exact H.
  - destruct (String.eqb k0 k) eqn:E; simpl.
    + apply String.eqb_eq in E. subst k0.
      intros [H|H]; [left; symmetry; exact H|right; right; exact H].
    + intros [H|H]; [right; left; exact H|].
      destruct (IH H) as [H'|H']; [left; exact H'|right; right; exact H'].
Qed.

(** ** The loops and their declarative counterparts *)

Section Loops.

Context {R : PyRuntime}.

Lemma column_ok_spec (c : string) (rows : list record) :
  column_ok c rows = is_numeric_column rows c.
Proof.
  induction rows as [|r rows IH]; simpl; [reflexivity|].
  unfold parses. destruct (String.eqb (cell r c) ""); simpl; [exact IH|].
  destruct (float_of_str (cell r c)); simpl; [exact IH|reflexivity].
Qed.

Lemma numeric_loop_spec (cols : list string) (rows : list record)
    (numeric : list string) :
  numeric_loop cols rows numeric
  = (numeric ++ filter (is_numeric_column rows) cols)%list.
Proof.
  revert numeric. induction cols as [|c cols IH]; intros numeric; simpl.
  - rewrite app_nil_r. reflexivity.
  - rewrite IH, column_ok_spec. unfold push.
    destruct (is_numeric_column rows c); [rewrite <- app_assoc|]; reflexivity.
Qed.

Lemma is_numeric_column_iff (rows : list record) (c : string) :
  is_numeric_column rows c = true <->
  forall r, In r rows -> cell r c <> "" -> float_of_str (cell r c) <> None.
Proof.
  unfold is_numeric_column, parses. rewrite forallb_forall. split.
  - intros H r Hr Hne. specialize (H r Hr).
    apply orb_true_iff in H. destruct H as [H|H].
    + apply String.eqb_eq in H. contradiction.
    + destruct (float_of_str (cell r c)); [discriminate|discriminate].
  - intros H r Hr. specialize (H r Hr).
    destruct (String.eqb (cell r c) "") eqn:E; simpl; [reflexivity|].
    apply String.eqb_neq in E. specialize (H E).
    destruct (float_of_str (cell r c)); [reflexivity|contradiction].
Qed.

Lemma detect_numeric_columns_filter (rows : list record) :
  detect_numeric_columns rows
  = filter (is_numeric_column rows)
           (match rows with [] => [] | r0 :: _ => Dict.keys r0 end).
Proof.
  destruct rows as [|r0 rest]; [reflexivity|].
  unfold detect_numeric_columns. rewrite numeric_loop_spec. reflexivity.
Qed.

Lemma collect_vals_spec (col : string) (rows : list record) (vals : list float) :
  collect_vals col rows vals = (vals ++ parsed_values col rows)%list.
Proof.
  revert vals. induction rows as [|r rows IH]; intros vals; simpl.
  - rewrite app_nil_r. reflexivity.
  - unfold cell_value. destruct (String.eqb (cell r col) ""); simpl; [apply IH|].
    destruct (float_of_str (cell r col)); simpl; [|apply IH].
    rewrite IH. unfold push. rewrite <- app_assoc. reflexivity.
Qed.

Lemma count_missing_spec (c : string) (rows : list record) (cnt : nat) :
  count_missing c rows cnt = cnt + blank_count c rows.
Proof.
  revert cnt. unfold blank_count.
  induction rows as [|r rows IH]; intros cnt; simpl; [lia|].
  rewrite IH. destruct (String.eqb (cell r c) ""); simpl; lia.
Qed.

Lemma missing_loop_get (cols : list string) (rows : list record)
    (out : Dict.t nat) (c : string) :
  Dict.get (missing_loop cols rows out) c
  = if str_in c cols && (0 <? blank_count c rows)%nat
    then Some (blank_count c rows) else Dict.get out c.
Proof.
  revert out. induction cols as [|k cols IH]; intros out; simpl; [reflexivity|].
  rewrite IH, count_missing_spec. simpl.
  destruct (String.eqb c k) eqn:E; simpl.
  - apply String.eqb_eq in E. subst k.
    destruct (0 <? blank_count c rows)%nat eqn:Hpos.
    + rewrite andb_true_r. destruct (str_in c cols); [reflexivity|].
      rewrite get_set, String.eqb_refl. reflexivity.
    + rewrite andb_false_r. reflexivity.
  - destruct (str_in c cols && (0 <? blank_count c rows)%nat); [reflexivity|].
    destruct (0 <? blank_count k rows)%nat; [|reflexivity].
    rewrite get_set, String.eqb_sym, E. reflexivity.
Qed.

Lemma missing_loop_items (cols : list string) (rows : list record)
    (out : Dict.t nat) (c : string) (n : nat) :
  (forall k m, In (k, m) out -> 0 < m /\ m = blank_count k rows) ->
  In (c, n) (missing_loop cols rows out) -> 0 < n /\ n = blank_count c rows.
Proof.
  revert out. induction cols as [|k cols IH]; intros out Hout; simpl.
  - apply Hout.
  - apply IH. rewrite count_missing_spec. simpl.
    destruct (0 <? blank_count k rows)%nat eqn:Hpos; [|exact Hout].
    intros k' m Hin. apply in_set_items in Hin. destruct Hin as [Heq|Hin].
    + inversion Heq; subst. apply Nat.ltb_lt in Hpos. split; [exact Hpos|reflexivity].
    + apply Hout. exact Hin.
Qed.

(** *** Column classification *)

(** C1 (as amended): [detect_numeric_columns] returns, in header order, exactly
    the columns of the first record in which every cell that is non-empty
    after stripping surrounding whitespace is accepted by [float]; such a cell
    that [float] rejects disqualifies its column, cells that are empty once
    stripped never do, a column whose cells are all empty once stripped is
    numeric, and the empty dataset yields the empty list. *)
Theorem detect_numeric_columns_stripped (rows : list record) :
  detect_numeric_columns rows
  = filter (is_numeric_column rows)
           (match rows with [] => [] | r0 :: _ => Dict.keys r0 end)
  /\ (forall c, In c (detect_numeric_columns rows) <->
        (exists r0 rest, rows = r0 :: rest /\ In c (Dict.keys r0))
        /\ (forall r, In r rows -> cell r c <> "" ->
                      float_of_str (cell r c) <> None))
  /\ (forall c r, In r rows -> cell r c <> "" -> float_of_str (cell r c) = None ->
        ~ In c (detect_numeric_columns rows))
  /\ (forall c r0 rest, rows = r0 :: rest -> In c (Dict.keys r0) ->
        (forall r, In r rows -> cell r c = "") ->
        In c (detect_numeric_columns rows))
  /\ detect_numeric_columns [] = [].
Proof.
  assert (Hiff : forall c, In c (detect_numeric_columns rows) <->
        (exists r0 rest, rows = r0 :: rest /\ In c (Dict.keys r0))
        /\ (forall r, In r rows -> cell r c <> "" ->
                      float_of_str (cell r c) <> None)).
  { intros c. rewrite detect_numeric_columns_filter, filter_In,
      is_numeric_column_iff.
    destruct rows as [|r0 rest]; simpl.
    - split; [intros [[] _]|intros [[r0 [rest [H _]]] _]; discriminate].
    - split; intros [H1 H2]; (split; [|exact H2]).
      + exists r0, rest. split; [reflexivity|exact H1].
      + destruct H1 as [r1 [rest1 [Heq Hin]]]. inversion Heq; subst. exact Hin. }
  split; [apply detect_numeric_columns_filter|].
  split; [exact Hiff|].
  split; [|split; [|reflexivity]].
  - intros c r Hr Hne Hnone Hin. apply Hiff in Hin. destruct Hin as [_ Hall].
    exact (Hall r Hr Hne Hnone).
  - intros c r0 rest Heq Hkey Hall. apply Hiff. split.
    + exists r0, rest. split; [exact Heq|exact Hkey].
    + intros r Hr Hne. exfalso. apply Hne. apply Hall. exact Hr.
Qed.

(** *** Missing values *)

Lemma missing_values_get (rows : list record) (c : string) :
  Dict.get (missing_values rows) c
  = if str_in c (match rows with [] => [] | r0 :: _ => Dict.keys r0 end)
       && (0 <? blank_count c rows)%nat
    then Some (blank_count c rows) else None.
Proof.
  destruct rows as [|r0 rest]; [reflexivity|].
  unfold missing_values. rewrite missing_loop_get. reflexivity.
Qed.

(** C3 (as amended): [missing_values] maps each column of the first record to
    the number of its cells that are empty after stripping surrounding
    whitespace, holds a column if and only if that number is strictly
    positive, never holds a zero count, and is empty for the empty dataset. *)
Theorem missing_values_stripped (rows : list record) :
  (forall c n, Dict.get (missing_values rows) c = Some n <->
     (exists r0 rest, rows = r0 :: rest /\ In c (Dict.keys r0))
     /\ n = blank_count c rows /\ 0 < n)
  /\ (forall c, In c (Dict.keys (missing_values rows)) <->
        (exists r0 rest, rows = r0 :: rest /\ In c (Dict.keys r0))
        /\ 0 < blank_count c rows)
  /\ (forall c n, In (c, n) (Dict.items (missing_values rows)) ->
        0 < n /\ n = blank_count c rows)
  /\ missing_values [] = [].
Proof.
  assert (Hget : forall c n, Dict.get (missing_values rows) c = Some n <->
     (exists r0 rest, rows = r0 :: rest /\ In c (Dict.keys r0))
     /\ n = blank_count c rows /\ 0 < n).
  { intros c n. rewrite missing_values_get.
    destruct rows as [|r0 rest]; simpl.
    - split; [discriminate|intros [[r0 [rest [H _]]] _]; discriminate].
    - destruct (str_in c (Dict.keys r0)) eqn:Hin; simpl.
      + apply str_in_iff in Hin.
        destruct (0 <? blank_count c (r0 :: rest))%nat eqn:Hpos.
        * apply Nat.ltb_lt in Hpos. split.
          -- intros H. inversion H; subst. split; [eauto|]. split; [reflexivity|exact Hpos].
          -- intros [_ [-> _]]. reflexivity.
        * apply Nat.ltb_ge in Hpos. split; [discriminate|].
          intros [_ [-> H]]. lia.
      + split; [discriminate|].
        intros [[r1 [rest1 [Heq Hk]]] _]. inversion Heq; subst.
        apply str_in_iff in Hk. congruence. }
  split; [exact Hget|]. split; [|split; [|reflexivity]].
  - intros c. split.
    + intros Hin. destruct (Dict.get (missing_values rows) c) as [n|] eqn:E.
      * apply Hget in E. destruct E as [H1 [-> H3]]. split; assumption.
      * apply get_none_iff in E. contradiction.
    + intros [H1 H2].
      apply (get_some_in_keys _ _ (blank_count c rows)). apply Hget.
      split; [exact H1|]. split; [reflexivity|exact H2].
  - intros c n. destruct rows as [|r0 rest]; simpl; [intros []|].
    apply missing_loop_items. intros k m [].
Qed.

End Loops.

(** ** Ordering of floats *)

Ltac split_signs :=
  repeat match goal with
         | s : bool |- _ => destruct s
         end;
  simpl; try discriminate; try reflexivity.

Ltac split_compare :=
  repeat match goal with
         | |- context [Z.compare ?a ?b] => destruct (Z.compare_spec a b)
         | H : context [Z.compare ?a ?b] |- _ => destruct (Z.compare_spec a b)
         | |- context [Pos.compare ?a ?b] => destruct (Pos.compare_spec a b)
         | H : context [Pos.compare ?a ?b] |- _ => destruct (Pos.compare_spec a b)
         end.

Lemma SFleb_trans (a b c : spec_float) :
  SFleb a b = true -> SFleb b c = true -> SFleb a c = true.
Proof.
  unfold SFleb, SFcompare.
  destruct a as [sa|sa| |sa ma ea], b as [sb|sb| |sb mb eb],
           c as [sc|sc| |sc mc ec];
    split_signs;
    change (Pos.compare_cont Eq) with Pos.compare in *;
    intros; split_compare; simpl in *; subst;
    try discriminate; try reflexivity; try lia.
Qed.

Lemma SFleb_refl (a : spec_float) : a <> S754_nan -> SFleb a a = true.
Proof.
  unfold SFleb, SFcompare. destruct a as [s|s| |s m e]; intros H; split_signs;
    try congruence;
    change (Pos.compare_cont Eq) with Pos.compare;
    rewrite Z.compare_refl, Pos.compare_refl; reflexivity.
Qed.

Lemma SFltb_false_leb (a b : spec_float) :
  a <> S754_nan -> b <> S754_nan -> SFltb a b = false -> SFleb b a = true.
Proof.
  unfold SFleb, SFltb, SFcompare.
  destruct a as [sa|sa| |sa ma ea], b as [sb|sb| |sb mb eb]; intros Ha Hb;
    try congruence; split_signs;
    change (Pos.compare_cont Eq) with Pos.compare in *;
    intros; split_compare; simpl in *; subst;
    try discriminate; try reflexivity; try lia.
Qed.

Lemma not_nan_spec (x : float) :
  PrimFloat.is_nan x = false -> Prim2SF x <> S754_nan.
Proof.
  unfold PrimFloat.is_nan. rewrite eqb_spec. intros H E. rewrite E in H.
  discriminate.
Qed.

Lemma leb_trans (x y z : float) :
  PrimFloat.leb x y = true -> PrimFloat.leb y z = true ->
  PrimFloat.leb x z = true.
Proof. rewrite !leb_spec. apply SFleb_trans. Qed.

Lemma leb_refl (x : float) :
  PrimFloat.is_nan x = false -> PrimFloat.leb x x = true.
Proof. intros H. rewrite leb_spec. apply SFleb_refl, not_nan_spec, H. Qed.

Lemma ltb_leb (x y : float) :
  PrimFloat.ltb x y = true -> PrimFloat.leb x y = true.
Proof.
  rewrite ltb_spec, leb_spec. unfold SFltb, SFleb.
  destruct (SFcompare (Prim2SF x) (Prim2SF y)) as [[| |]|]; congruence.
Qed.

Lemma ltb_false_leb (x y : float) :
  PrimFloat.is_nan x = false -> PrimFloat.is_nan y = false ->
  PrimFloat.ltb x y = false -> PrimFloat.leb y x = true.
Proof.
  intros Hx Hy. rewrite ltb_spec, leb_spec.
  apply SFltb_false_leb; apply not_nan_spec; assumption.
Qed.

(** [min] and [max] return one of the items. *)
Lemma py_min_in (x : float) (xs : list float) : In (PyFloat.min x xs) (x :: xs).
Proof.
  unfold PyFloat.min. revert x. induction xs as [|a xs IH]; intros x; simpl.
  - left. reflexivity.
  - specialize (IH (if PrimFloat.ltb a x then a else x)).
    destruct (PrimFloat.ltb a x); simpl in IH; tauto.
Qed.

Lemma py_max_in (x : float) (xs : list float) : In (PyFloat.max x xs) (x :: xs).
Proof.
  unfold PyFloat.max. revert x. induction xs as [|a xs IH]; intros x; simpl.
  - left. reflexivity.
  - specialize (IH (if PrimFloat.ltb x a then a else x)).
    destruct (PrimFloat.ltb x a); simpl in IH; tauto.
Qed.

(** Without NaN among the items, [min] is below and [max] above each item. *)
Lemma py_min_le (x : float) (xs : list float) :
  nan_free (x :: xs) ->
  forall v, In v (x :: xs) -> PrimFloat.leb (PyFloat.min x xs) v = true.
Proof.
  unfold PyFloat.min. revert x. induction xs as [|a xs IH]; intros x Hn v Hv.
  - simpl in *. destruct Hv as [<-|[]]. apply leb_refl, Hn. left. reflexivity.
  - simpl fold_left.
    assert (Hx : PrimFloat.is_nan x = false) by (apply Hn; left; reflexivity).
    assert (Ha : PrimFloat.is_nan a = false) by (apply Hn; right; left; reflexivity).
    set (b := if PrimFloat.ltb a x then a else x).
    assert (Hb : nan_free (b :: xs)).
    { intros w [<-|Hw]; [unfold b; destruct (PrimFloat.ltb a x); assumption|].
      apply Hn. right. right. exact Hw. }
    assert (Hbx : PrimFloat.leb b x = true).
    { unfold b. destruct (PrimFloat.ltb a x) eqn:E;
        [apply ltb_leb, E|apply leb_refl, Hx]. }
    assert (Hba : PrimFloat.leb b a = true).
    { unfold b. destruct (PrimFloat.ltb a x) eqn:E;
        [apply leb_refl, Ha|apply ltb_false_leb; assumption]. }
    pose proof (IH b Hb b (or_introl eq_refl)) as Hmin.
    destruct Hv as [<-|[<-|Hv]].
    + exact (leb_trans _ _ _ Hmin Hbx).
    + exact (leb_trans _ _ _ Hmin Hba).
    + apply (IH b Hb). right. exact Hv.
Qed.

Lemma py_max_ge (x : float) (xs : list float) :
  nan_free (x :: xs) ->
  forall v, In v (x :: xs) -> PrimFloat.leb v (PyFloat.max x xs) = true.
Proof.
  unfold PyFloat.max. revert x. induction xs as [|a xs IH]; intros x Hn v Hv.
  - simpl in *. destruct Hv as [<-|[]]. apply leb_refl, Hn. left. reflexivity.
  - simpl fold_left.
    assert (Hx : PrimFloat.is_nan x = false) by (apply Hn; left; reflexivity).
    assert (Ha : PrimFloat.is_nan a = false) by (apply Hn; right; left; reflexivity).
    set (b := if PrimFloat.ltb x a then a else x).
    assert (Hb : nan_free (b :: xs)).
    { intros w [<-|Hw]; [unfold b; destruct (PrimFloat.ltb x a); assumption|].
      apply Hn. right. right. exact Hw. }
    assert (Hbx : PrimFloat.leb x b = true).
    { unfold b. destruct (PrimFloat.ltb x a) eqn:E;
        [apply ltb_leb, E|apply leb_refl, Hx]. }
    assert (Hba : PrimFloat.leb a b = true).
    { unfold b. destruct (PrimFloat.ltb x a) eqn:E;
        [apply leb_refl, Ha|apply ltb_false_leb; assumption]. }
    pose proof (IH b Hb b (or_introl eq_refl)) as Hmax.
    destruct Hv as [<-|[<-|Hv]].
    + exact (leb_trans _ _ _ Hbx Hmax).
    + exact (leb_trans _ _ _ Hba Hmax).
    + apply (IH b Hb). right. exact Hv.
Qed.

(** ** Statistics *)

Section Statistics.

Context {R : PyRuntime}.

Lemma basic_stats_unfold (rows : list record) (col : string) :
  basic_stats rows col
  = match parsed_values col rows with
    | [] => None
    | x :: xs =>
        Some {| Stats.avg := PrimFloat.div (PyFloat.sum (x :: xs))
                               (PyFloat.of_len (List.length (x :: xs)));
                Stats.min := PyFloat.min x xs;
                Stats.max := PyFloat.max x xs;
                Stats.count := List.length (x :: xs) |}
    end.
Proof. unfold basic_stats. rewrite collect_vals_spec. reflexivity. Qed.

Lemma parsed_values_nil_iff (col : string) (rows : list record) :
  parsed_values col rows = [] <-> forall r, In r rows -> cell_value r col = None.
Proof.
  unfold parsed_values. induction rows as [|r rows IH]; simpl.
  - split; [intros _ r []|reflexivity].
  - destruct (cell_value r col) as [x|] eqn:E; simpl.
    + split; [discriminate|]. intros H. specialize (H r (or_introl eq_refl)).
      congruence.
    + rewrite IH. split.
      * intros H r' [<-|Hr']; [exact E|apply H, Hr'].
      * intros H r' Hr'. apply H. right. exact Hr'.
Qed.

Lemma parsed_values_app (col : string) (rows1 rows2 : list record) :
  parsed_values col (rows1 ++ rows2)
  = (parsed_values col rows1 ++ parsed_values col rows2)%list.
Proof. unfold parsed_values. apply flat_map_app. Qed.

(** In a numeric column every record is blank or contributes one number. *)
Lemma numeric_column_count (rows : list record) (c : string) :
  is_numeric_column rows c = true ->
  List.length (parsed_values c rows) + blank_count c rows = List.length rows.
Proof.
  unfold is_numeric_column, parsed_values, blank_count, cell_value, parses.
  induction rows as [|r rows IH]; simpl; [reflexivity|].
  intros H. apply andb_true_iff in H. destruct H as [Hr Hrest].
  specialize (IH Hrest).
  destruct (String.eqb (cell r c) ""); simpl in *; [lia|].
  destruct (float_of_str (cell r c)); simpl; [lia|discriminate].
Qed.

Lemma missing_values_default (rows : list record) (c : string) :
  In c (match rows with [] => [] | r0 :: _ => Dict.keys r0 end) ->
  Dict.get_default (missing_values rows) c 0 = blank_count c rows.
Proof.
  intros Hin. unfold Dict.get_default. rewrite missing_values_get.
  apply str_in_iff in Hin. rewrite Hin. simpl.
  destruct (0 <? blank_count c rows)%nat eqn:E; [reflexivity|].
  apply Nat.ltb_ge in E. lia.
Qed.

(** C2 (as amended): for a column classified numeric, the count reported by
    [basic_stats] is the number of rows minus the column's missing-value
    count (no statistics are reported exactly when that difference is zero);
    the reported min and max are two of the parsed values and, when no parsed
    value is a NaN, min is at most and max at least every parsed value, so
    min <= max; avg is the floating-point sum divided by the count. *)
Theorem numeric_column_stats (rows : list record) (c : string) :
  In c (detect_numeric_columns rows) ->
  Dict.get_default (missing_values rows) c 0 <= List.length rows
  /\ match basic_stats rows c with
     | Some s =>
         Stats.count s
         = List.length rows - Dict.get_default (missing_values rows) c 0
         /\ 0 < Stats.count s
         /\ In (Stats.min s) (parsed_values c rows)
         /\ In (Stats.max s) (parsed_values c rows)
         /\ Stats.avg s
            = PrimFloat.div (PyFloat.sum (parsed_values c rows))
                            (PyFloat.of_len (Stats.count s))
         /\ (nan_free (parsed_values c rows) ->
             (forall v, In v (parsed_values c rows) ->
                        PrimFloat.leb (Stats.min s) v = true
                        /\ PrimFloat.leb v (Stats.max s) = true)
             /\ PrimFloat.leb (Stats.min s) (Stats.max s) = true)
     | None =>
         List.length rows - Dict.get_default (missing_values rows) c 0 = 0
     end.
Proof.
  intros Hin. rewrite detect_numeric_columns_filter in Hin.
  apply filter_In in Hin. destruct Hin as [Hkey Hnum].
  rewrite (missing_values_default rows c Hkey).
  pose proof (numeric_column_count rows c Hnum) as Hcount.
  split; [lia|].
  rewrite basic_stats_unfold.
  destruct (parsed_values c rows) as [|x xs] eqn:E.
  - simpl in Hcount. lia.
  - cbn [Stats.count Stats.min Stats.max Stats.avg].
    split; [lia|]. split; [simpl; lia|].
    split; [apply py_min_in|]. split; [apply py_max_in|].
    split; [reflexivity|].
    intros Hn. split.
    + intros v Hv. split; [apply py_min_le|apply py_max_ge]; assumption.
    + apply py_max_ge; [exact Hn|apply py_min_in].
Qed.

(** C4 (as amended): [basic_stats] returns nothing if and only if no cell of the column
    yields a number (a cell that is empty once stripped, or that [float]
    rejects, is skipped without error); otherwise the average is the sum of
    the parsed values divided by their number, min and max are what the
    builtin [min] and [max] return for them (one of the values, and a lower
    and an upper bound of all of them when none is a NaN), and count is the
    number of parsed values. *)
Theorem basic_stats_spec (rows : list record) (col : string) :
  (basic_stats rows col = None <->
     forall r, In r rows -> cell_value r col = None)
  /\ (forall s, basic_stats rows col = Some s ->
        exists x xs,
          parsed_values col rows = x :: xs
          /\ Stats.avg s = PrimFloat.div (PyFloat.sum (x :: xs))
                             (PyFloat.of_len (List.length (x :: xs)))
          /\ Stats.min s = PyFloat.min x xs
          /\ Stats.max s = PyFloat.max x xs
          /\ Stats.count s = List.length (x :: xs)
          /\ In (Stats.min s) (x :: xs) /\ In (Stats.max s) (x :: xs)
          /\ (nan_free (x :: xs) ->
              forall v, In v (x :: xs) ->
                        PrimFloat.leb (Stats.min s) v = true
                        /\ PrimFloat.leb v (Stats.max s) = true))
  /\ (forall before r after, rows = (before ++ r :: after)%list ->
        cell_value r col = None ->
        basic_stats rows col = basic_stats (before ++ after)%list col).
Proof.
  split; [|split].
  - rewrite <- parsed_values_nil_iff, basic_stats_unfold.
    destruct (parsed_values col rows); split; congruence.
  - intros s Hs. rewrite basic_stats_unfold in Hs.
    destruct (parsed_values col rows) as [|x xs]; [discriminate|].
    inversion Hs; subst s; clear Hs. exists x, xs.
    cbn [Stats.count Stats.min Stats.max Stats.avg].
    repeat (split; [reflexivity|]).
    split; [apply py_min_in|]. split; [apply py_max_in|].
    intros Hn v Hv. split; [apply py_min_le|apply py_max_ge]; assumption.
  - intros before r after -> Hr.
    rewrite !basic_stats_unfold, !parsed_values_app.
    replace (parsed_values col (r :: after)) with (parsed_values col after);
      [reflexivity|].
    unfold parsed_values at 2. simpl. rewrite Hr. reflexivity.
Qed.

End Statistics.

(** ** The report *)

Lemma str_app_assoc (a b c : string) : (a ++ b) ++ c = a ++ (b ++ c).
Proof. induction a as [|x a IH]; simpl; [reflexivity|]. rewrite IH. reflexivity. Qed.


Lemma divider_dashes :
  divider = "--------------------------------" /\ String.length divider = 32.
Proof. split; reflexivity. Qed.

Section Report.

Context {R : PyRuntime}.

Lemma numeric_lines_spec (numeric_cols : list string)
    (stats_map : Dict.t Stats.t) (lines : list string) :
  numeric_lines numeric_cols stats_map lines
  = (lines ++ summary_lines numeric_cols stats_map)%list.
Proof.
  revert lines. unfold summary_lines.
  induction numeric_cols as [|c cs IH]; intros lines; simpl.
  - rewrite app_nil_r. reflexivity.
  - destruct (Dict.get stats_map c); rewrite IH; [|reflexivity].
    unfold push. rewrite <- app_assoc. reflexivity.
Qed.

Lemma missing_lines_spec (items : list (string * nat)) (lines : list string) :
  missing_lines items lines
  = (lines ++ map missing_line items)%list.
Proof.
  revert lines. induction items as [|[c n] items IH]; intros lines; simpl.
  - rewrite app_nil_r. reflexivity.
  - rewrite IH. unfold push. rewrite <- app_assoc. reflexivity.
Qed.

(** The lines of the report are its five sections, one after the other. *)
Lemma report_lines_sections (file_name : string) (rows_count : nat)
    (numeric_cols : list string) (stats_map : Dict.t Stats.t)
    (cat_col : option string) (cat_top : option (string * nat))
    (missing : Dict.t nat) :
  report_lines file_name rows_count numeric_cols stats_map cat_col cat_top missing
  = (heading_section file_name rows_count
       ++ numeric_section numeric_cols stats_map
       ++ categorical_section cat_col cat_top
       ++ missing_section missing
       ++ notes_section numeric_cols cat_col cat_top missing)%list.
Proof.
  unfold report_lines, heading_section, numeric_section, categorical_section,
    missing_section, notes_section, dominant_note, push, Dict.items.
  rewrite numeric_lines_spec.
  destruct numeric_cols as [|c0 cs];
    destruct cat_col as [col|]; [destruct (truthy (Some col))| |destruct (truthy (Some col))|];
    destruct cat_top as [[value n]|];
    destruct missing as [|m0 ms];
    try rewrite missing_lines_spec;
    cbn [app]; repeat rewrite <- app_assoc; cbn [app]; reflexivity.
Qed.



(** *** The categorical column *)

Lemma first_not_in_some (cols numeric_cols : list string) (c : string) :
  first_not_in cols numeric_cols = Some c <->
  exists before after,
    cols = (before ++ c :: after)%list
    /\ (forall x, In x before -> In x numeric_cols)
    /\ ~ In c numeric_cols.
Proof.
  induction cols as [|k cols IH]; simpl.
  - split; [discriminate|]. intros [[|b before] [after [H _]]]; discriminate.
  - destruct (str_in k numeric_cols) eqn:E; simpl.
    + apply str_in_iff in E. rewrite IH. split.
      * intros [before [after [-> [Hb Hc]]]].
        exists (k :: before), after. split; [reflexivity|]. split; [|exact Hc].
        intros x [<-|Hx]; [exact E|apply Hb, Hx].
      * intros [[|b before] [after [Heq [Hb Hc]]]]; inversion Heq; subst.
        -- contradiction.
        -- exists before, after. split; [reflexivity|]. split; [|exact Hc].
           intros x Hx. apply Hb. right. exact Hx.
    + assert (Hk : ~ In k numeric_cols).
      { intros H. apply str_in_iff in H. congruence. }
      split.
      * intros H. inversion H; subst. exists [], cols.
        split; [reflexivity|]. split; [intros x []|exact Hk].
      * intros [[|b before] [after [Heq [Hb Hc]]]]; inversion Heq; subst.
        -- reflexivity.
        -- exfalso. apply Hk, Hb. left. reflexivity.
Qed.

Lemma first_not_in_none (cols numeric_cols : list string) :
  first_not_in cols numeric_cols = None <->
  forall c, In c cols -> In c numeric_cols.
Proof.
  induction cols as [|k cols IH]; simpl.
  - split; [intros _ c []|reflexivity].
  - destruct (str_in k numeric_cols) eqn:E; simpl.
    + apply str_in_iff in E. rewrite IH. split.
      * intros H c [<-|Hc]; [exact E|apply H, Hc].
      * intros H c Hc. apply H. right. exact Hc.
    + split; [discriminate|]. intros H.
      specialize (H k (or_introl eq_refl)). apply str_in_iff in H. congruence.
Qed.

Lemma summary_lines_not_categorical (numeric_cols : list string)
    (stats_map : Dict.t Stats.t) :
  Forall (fun line => categorical_line line = false)
         (summary_lines numeric_cols stats_map).
Proof.
  apply Forall_forall. intros line Hin. unfold summary_lines in Hin.
  apply in_flat_map in Hin. destruct Hin as [c [_ Hin]].
  destruct (Dict.get stats_map c) as [s|]; [|destruct Hin].
  destruct Hin as [<-|[]]. reflexivity.
Qed.

Lemma missing_section_not_categorical (missing : Dict.t nat) :
  Forall (fun line => categorical_line line = false) (missing_section missing).
Proof.
  unfold missing_section. destruct missing as [|m0 ms]; [constructor|].
  constructor; [reflexivity|]. apply Forall_app. split.
  - apply Forall_forall. intros line Hin. apply in_map_iff in Hin.
    destruct Hin as [cn [<- _]]. reflexivity.
  - constructor; [reflexivity|constructor].
Qed.

(** C5: [first_categorical_column] returns the first column of the first
    record, in header order, whose name is not in the numeric list, and
    nothing when every column is in that list or the dataset is empty; with
    no categorical column the report has no line of the categorical section
    and no dominant-category note. *)
Theorem first_categorical_column_spec (rows : list record)
    (numeric_cols : list string) :
  (forall c, first_categorical_column rows numeric_cols = Some c <->
     exists r0 rest before after,
       rows = r0 :: rest
       /\ Dict.keys r0 = (before ++ c :: after)%list
       /\ (forall x, In x before -> In x numeric_cols)
       /\ ~ In c numeric_cols)
  /\ (first_categorical_column rows numeric_cols = None <->
      rows = [] \/
      exists r0 rest, rows = r0 :: rest
                      /\ forall c, In c (Dict.keys r0) -> In c numeric_cols)
  /\ (forall file_name rows_count stats_map cat_top missing,
        categorical_section None cat_top = []
        /\ dominant_note None cat_top = []
        /\ Forall (fun line => categorical_line line = false)
                  (report_lines file_name rows_count numeric_cols stats_map
                                None cat_top missing)).
Proof.
  split; [|split].
  - intros c. destruct rows as [|r0 rest]; simpl.
    + split; [discriminate|]. intros [r0 [rest [b [a [H _]]]]]. discriminate.
    + rewrite first_not_in_some. split.
      * intros [before [after H]]. exists r0, rest, before, after.
        split; [reflexivity|exact H].
      * intros [r1 [rest1 [before [after [Heq H]]]]]. inversion Heq; subst.
        exists before, after. exact H.
  - destruct rows as [|r0 rest]; simpl.
    + split; [intros _; left; reflexivity|reflexivity].
    + rewrite first_not_in_none. split.
      * intros H. right. exists r0, rest. split; [reflexivity|exact H].
      * intros [H|[r1 [rest1 [Heq H]]]]; [discriminate|].
        inversion Heq; subst. exact H.
  - intros file_name rows_count stats_map cat_top missing.
    split; [reflexivity|]. split; [reflexivity|].
    rewrite report_lines_sections.
    repeat (apply Forall_app; split).
    + unfold heading_section. repeat (constructor; [reflexivity|]). constructor.
    + unfold numeric_section. destruct numeric_cols as [|c0 cs].
      * repeat (constructor; [reflexivity|]). constructor.
      * constructor; [reflexivity|]. apply Forall_app. split.
        -- apply summary_lines_not_categorical.
        -- constructor; [reflexivity|constructor].
    + constructor.
    + apply missing_section_not_categorical.
    + unfold notes_section, dominant_note.
      destruct numeric_cols, missing;
        repeat (constructor; [reflexivity|]); constructor.
Qed.

End Report.

(** ** The run of [main] *)

Lemma ends_with_app (ch : ascii) (a s : string) :
  s <> "" -> PyStr.ends_with ch (a ++ s) = PyStr.ends_with ch s.
Proof.
  intros Hs. induction a as [|c a IH]; [reflexivity|].
  simpl. destruct (a ++ s) eqn:E; [|exact IH].
  destruct a; simpl in E; [contradiction|discriminate].
Qed.

Lemma has_slash_app (a s : string) :
  PyStr.has_slash s = true -> PyStr.has_slash (a ++ s) = true.
Proof.
  intros Hs. induction a as [|c a IH]; [exact Hs|].
  simpl. rewrite IH. apply orb_true_r.
Qed.

Lemma basename_app (a t : string) :
  PyStr.has_slash t = false -> basename (a ++ "/" ++ t) = t.
Proof.
  intros Ht. induction a as [|c a IH].
  - simpl. rewrite Ht. reflexivity.
  - change (basename (String c (a ++ "/" ++ t)) = t). simpl basename.
    rewrite has_slash_app; [exact IH|reflexivity].
Qed.

(** The input path is the data directory followed by the file name. *)
Lemma csv_path_shape (here : string) :
  csv_path here = path_join here "data" ++ "/" ++ "sales_data.csv".
Proof.
  unfold csv_path. set (d := path_join here "data").
  assert (Hd : exists a, d = a ++ "data").
  { unfold d, path_join. simpl PyStr.startswith.
    destruct (String.eqb here "" || PyStr.ends_with "/" here).
    - exists here. reflexivity.
    - exists (here ++ "/"). rewrite str_app_assoc. reflexivity. }
  destruct Hd as [a Ha]. unfold path_join. simpl PyStr.startswith.
  assert (Hne : String.eqb d "" = false).
  { apply String.eqb_neq. rewrite Ha. destruct a; discriminate. }
  assert (Hend : PyStr.ends_with "/" d = false).
  { rewrite Ha, ends_with_app; [reflexivity|discriminate]. }
  rewrite Hne, Hend. reflexivity.
Qed.

Lemma csv_path_basename (here : string) :
  basename (csv_path here) = "sales_data.csv".
Proof. rewrite csv_path_shape. apply basename_app. reflexivity. Qed.

Lemma csv_path_not_out_path (here : string) : csv_path here <> out_path here.
Proof.
  intros H.
  assert (Hc : PyStr.ends_with "v" (csv_path here) = true).
  { rewrite csv_path_shape, <- str_app_assoc, ends_with_app;
      [reflexivity|discriminate]. }
  assert (Ho : PyStr.ends_with "v" (out_path here) = false).
  { unfold out_path, path_join. simpl PyStr.startswith.
    destruct (String.eqb here "" || PyStr.ends_with "/" here).
    - rewrite ends_with_app; [reflexivity|discriminate].
    - rewrite <- str_app_assoc, ends_with_app; [reflexivity|discriminate]. }
  rewrite H in Hc. congruence.
Qed.

Section Main.

Context {R : PyRuntime}.

(** A run that finds its input, reads rows whose first one has no surplus
    field, and can write its output. *)
Lemma main_writes_report (here : string) (w : world) (text : string)
    (raw : list csv_row) :
  fs w (csv_path here) = Some (File text) ->
  csv_rows text = inl raw ->
  first_row_has_surplus text = false ->
  fs w (out_path here) <> Some Directory ->
  snd (main here w) = Returned
  /\ (forall p, fs (fst (main here w)) p
                = if String.eqb p (out_path here)
                  then Some (File (pipeline_text "sales_data.csv" (load_csv text)))
                  else fs w p)
  /\ console (fst (main here w))
     = (console w
          ++ [ ("Loaded " ++ PyStr.of_nat (List.length (load_csv text))
                          ++ " rows.")%string;
               ("Report written to: " ++ out_path here)%string ])%list.
Proof.
  intros Hin Hraw Hsurplus Hout. unfold main, path_exists, read_file.
  rewrite Hin. cbn [negb]. cbv iota. rewrite Hraw, Hsurplus.
  unfold write_report, write_file.
  rewrite csv_path_basename.
  cbn [fs print].
  destruct (fs w (out_path here)) as [[content|]|] eqn:E; try congruence;
    cbn [fst snd fs console print]; unfold push;
    (split; [reflexivity|]); (split; [intros p; reflexivity|]);
    rewrite <- app_assoc; reflexivity.
Qed.

(** C6: when the input file does not exist, [main] prints the single message
    ["File not found: {path}"] and returns; no file is created or changed, so
    no report is produced, and the run ends with exit status 0, the status of
    every run that returns. *)
Theorem main_file_not_found (here : string) (w : world) :
  fs w (csv_path here) = None ->
  main here w = (print ("File not found: " ++ csv_path here) w, Returned)
  /\ console (fst (main here w))
     = push (console w) ("File not found: " ++ csv_path here)
  /\ fs (fst (main here w)) = fs w
  /\ fs (fst (main here w)) (out_path here) = fs w (out_path here)
  /\ snd (main here w) = Returned
  /\ exit_status (snd (main here w)) = 0
  /\ (forall w',
        snd (main here w') = Returned ->
        exit_status (snd (main here w')) = exit_status (snd (main here w))).
Proof.
  intros Hmissing.
  assert (Hmain : main here w
                  = (print ("File not found: " ++ csv_path here) w, Returned)).
  { unfold main, path_exists. rewrite Hmissing. reflexivity. }
  rewrite Hmain. cbn [fst snd print fs console exit_status].
  repeat (split; [reflexivity|]).
  intros w' Hreturned. rewrite Hreturned. reflexivity.
Qed.

End Main.

(** ** What the operations read from the records *)

Lemma cell_map_values (f : string -> string) (r : record) (c : string) :
  (forall v, PyStr.strip (f v) = PyStr.strip v) ->
  cell (map (fun kv : string * string => (fst kv, f (snd kv))) r) c = cell r c.
Proof.
  intros Hf. unfold cell, Dict.get_default. rewrite get_map_values.
  destruct (Dict.get r c); simpl; [apply Hf|reflexivity].
Qed.

Lemma get_default_absent (r : record) (c : string) :
  ~ In c (Dict.keys r) -> Dict.get_default r c "" = "".
Proof.
  intros H. apply get_none_iff in H. unfold Dict.get_default. rewrite H.
  reflexivity.
Qed.

Lemma get_default_set_other (r : record) (k c v : string) :
  c <> k -> Dict.get_default (Dict.set r k v) c "" = Dict.get_default r c "".
Proof.
  intros H. unfold Dict.get_default. rewrite get_set.
  destruct (String.eqb k c) eqn:E; [|reflexivity].
  apply String.eqb_eq in E. congruence.
Qed.

Section Agreement.

Context {R : PyRuntime}.

Variable P : string -> Prop.

Lemma column_ok_agree (c : string) (rows rows' : list record) :
  P c -> agree_on P rows rows' -> column_ok c rows = column_ok c rows'.
Proof.
  intros Hc H. induction H as [|r r' rows rows' Hr _ IH]; [reflexivity|].
  simpl. rewrite <- (Hr c Hc), IH. reflexivity.
Qed.

Lemma numeric_loop_agree (cols : list string) (rows rows' : list record)
    (numeric : list string) :
  (forall c, In c cols -> P c) -> agree_on P rows rows' ->
  numeric_loop cols rows numeric = numeric_loop cols rows' numeric.
Proof.
  intros Hcols H. revert numeric.
  induction cols as [|c cols IH]; intros numeric; [reflexivity|].
  simpl. rewrite (column_ok_agree c rows rows'); [|apply Hcols; left; reflexivity|exact H].
  apply IH. intros x Hx. apply Hcols. right. exact Hx.
Qed.

Lemma collect_vals_agree (col : string) (rows rows' : list record)
    (vals : list float) :
  P col -> agree_on P rows rows' ->
  collect_vals col rows vals = collect_vals col rows' vals.
Proof.
  intros Hc H. revert vals.
  induction H as [|r r' rows rows' Hr _ IH]; intros vals; [reflexivity|].
  simpl. rewrite <- (Hr col Hc).
  destruct (String.eqb (cell r col) ""); [apply IH|].
  destruct (float_of_str (cell r col)); apply IH.
Qed.

Lemma count_missing_agree (c : string) (rows rows' : list record) (cnt : nat) :
  P c -> agree_on P rows rows' ->
  count_missing c rows cnt = count_missing c rows' cnt.
Proof.
  intros Hc H. revert cnt.
  induction H as [|r r' rows rows' Hr _ IH]; intros cnt; [reflexivity|].
  simpl. rewrite <- (Hr c Hc). apply IH.
Qed.

Lemma missing_loop_agree (cols : list string) (rows rows' : list record)
    (out : Dict.t nat) :
  (forall c, In c cols -> P c) -> agree_on P rows rows' ->
  missing_loop cols rows out = missing_loop cols rows' out.
Proof.
  intros Hcols H. revert out.
  induction cols as [|c cols IH]; intros out; [reflexivity|].
  simpl. rewrite (count_missing_agree c rows rows'); [|apply Hcols; left; reflexivity|exact H].
  apply IH. intros x Hx. apply Hcols. right. exact Hx.
Qed.

Lemma freq_loop_agree (col : string) (rows rows' : list record)
    (freq : Dict.t nat) :
  P col -> agree_on P rows rows' ->
  freq_loop col rows freq = freq_loop col rows' freq.
Proof.
  intros Hc H. revert freq.
  induction H as [|r r' rows rows' Hr _ IH]; intros freq; [reflexivity|].
  simpl. rewrite <- (Hr col Hc).
  destruct (String.eqb (cell r col) ""); apply IH.
Qed.

End Agreement.

Section Cells.

Context {R : PyRuntime}.

(** The operations see a dataset only through the keys of its first record
    and the stripped cells: a change of the cells that stripping undoes
    changes no result. *)
Lemma operations_read_stripped_cells (f : string -> string)
    (rows : list record) :
  (forall v, PyStr.strip (f v) = PyStr.strip v) ->
  detect_numeric_columns (map_cells f rows) = detect_numeric_columns rows
  /\ (forall col, basic_stats (map_cells f rows) col = basic_stats rows col)
  /\ missing_values (map_cells f rows) = missing_values rows
  /\ (forall col, most_frequent (map_cells f rows) col = most_frequent rows col).
Proof.
  intros Hf.
  assert (Hagree : agree_on (fun _ => True) (map_cells f rows) rows).
  { unfold map_cells. induction rows as [|r rows IH]; simpl; constructor.
    - intros c _. apply cell_map_values, Hf.
    - exact IH. }
  split; [|split; [|split]].
  - destruct rows as [|r0 rest]; [reflexivity|].
    unfold detect_numeric_columns. cbn [map_cells map].
    rewrite keys_map_values.
    apply (numeric_loop_agree (fun _ => True)); [intros; exact I|exact Hagree].
  - intros col. unfold basic_stats.
    rewrite (collect_vals_agree (fun _ => True) col _ rows); auto.
  - destruct rows as [|r0 rest]; [reflexivity|].
    unfold missing_values. cbn [map_cells map].
    rewrite keys_map_values.
    apply (missing_loop_agree (fun _ => True)); [intros; exact I|exact Hagree].
  - intros col. unfold most_frequent.
    rewrite (freq_loop_agree (fun _ => True) col _ rows); auto.
Qed.

(** The results for a dataset whose first record is [r0] depend on the later
    records only through their cells in the columns of [r0]. *)
Lemma later_records_read_by_header (r0 : record) (rest rest' : list record) :
  Forall2 (fun r r' => forall c, In c (Dict.keys r0) -> raw_cell r c = raw_cell r' c)
          rest rest' ->
  detect_numeric_columns (r0 :: rest) = detect_numeric_columns (r0 :: rest')
  /\ missing_values (r0 :: rest) = missing_values (r0 :: rest')
  /\ (forall numeric_cols,
        first_categorical_column (r0 :: rest) numeric_cols
        = first_categorical_column (r0 :: rest') numeric_cols).
Proof.
  intros H.
  assert (Hagree : agree_on (fun c => In c (Dict.keys r0))
                            (r0 :: rest) (r0 :: rest')).
  { constructor; [reflexivity|].
    induction H as [|r r' rest rest' Hr _ IH]; constructor; [|exact IH].
    intros c Hc. unfold cell. unfold raw_cell in Hr. rewrite (Hr c Hc).
    reflexivity. }
  split; [|split; [|reflexivity]].
  - unfold detect_numeric_columns.
    apply (numeric_loop_agree (fun c => In c (Dict.keys r0)));
      [intros c Hc; exact Hc|exact Hagree].
  - unfold missing_values.
    apply (missing_loop_agree (fun c => In c (Dict.keys r0)));
      [intros c Hc; exact Hc|exact Hagree].
Qed.

(** C10: the three operations take their columns from the keys of the first
    record only: every column they return is one of these keys, a column
    name that occurs only in later records is ignored (adding it to later
    records, or changing later records outside the first record's columns,
    changes no result), and a column absent from a record is read there as
    the empty string. *)
Theorem columns_come_from_first_record (r0 : record) (rest rest' : list record) :
  Forall2 (fun r r' => forall c, In c (Dict.keys r0) -> raw_cell r c = raw_cell r' c)
          rest rest' ->
  (detect_numeric_columns (r0 :: rest) = detect_numeric_columns (r0 :: rest')
   /\ missing_values (r0 :: rest) = missing_values (r0 :: rest')
   /\ (forall numeric_cols,
         first_categorical_column (r0 :: rest) numeric_cols
         = first_categorical_column (r0 :: rest') numeric_cols))
  /\ (forall c, In c (detect_numeric_columns (r0 :: rest)) -> In c (Dict.keys r0))
  /\ (forall c, In c (Dict.keys (missing_values (r0 :: rest))) ->
                In c (Dict.keys r0))
  /\ (forall numeric_cols c,
        first_categorical_column (r0 :: rest) numeric_cols = Some c ->
        In c (Dict.keys r0))
  /\ (forall k v, ~ In k (Dict.keys r0) ->
        let widened := map (fun r => Dict.set r k v) rest in
        detect_numeric_columns (r0 :: widened) = detect_numeric_columns (r0 :: rest)
        /\ missing_values (r0 :: widened) = missing_values (r0 :: rest)
        /\ (forall numeric_cols,
              first_categorical_column (r0 :: widened) numeric_cols
              = first_categorical_column (r0 :: rest) numeric_cols))
  /\ (forall (r : record) c, ~ In c (Dict.keys r) ->
        raw_cell r c = "" /\ cell r c = "").
Proof.
  intros H. split; [exact (later_records_read_by_header r0 rest rest' H)|].
  split; [|split; [|split; [|split]]].
  - intros c Hc. rewrite detect_numeric_columns_filter in Hc.
    apply filter_In in Hc. tauto.
  - intros c Hc.
    destruct (Dict.get (missing_values (r0 :: rest)) c) as [n|] eqn:E.
    + rewrite missing_values_get in E.
      destruct (str_in c (Dict.keys r0)) eqn:Hin; [|discriminate].
      apply str_in_iff. exact Hin.
    + apply get_none_iff in E. contradiction.
  - intros numeric_cols c Hc. simpl in Hc. apply first_not_in_some in Hc.
    destruct Hc as [before [after [-> _]]]. apply in_elt.
  - intros k v Hk widened. apply later_records_read_by_header.
    unfold widened. clear H. induction rest as [|r rest IH]; simpl; constructor.
    + intros c Hc. unfold raw_cell. apply get_default_set_other.
      intros ->. contradiction.
    + exact IH.
  - intros r c Hc. unfold cell, raw_cell.
    rewrite (get_default_absent r c Hc). split; reflexivity.
Qed.

End Cells.

(** ** Frequencies *)

Lemma max_key_in (freq : Dict.t nat) (k0 : string) (ks : list string) :
  In (max_key freq k0 ks) (k0 :: ks).
Proof.
  unfold max_key. revert k0. induction ks as [|k ks IH]; intros k0; simpl.
  - left. reflexivity.
  - match goal with
    | |- context [fold_left _ ks ?b] => specialize (IH b); destruct IH as [IH|IH]
    end.
    + rewrite <- IH.
      destruct (Dict.get_default freq k0 0 <? Dict.get_default freq k 0)%nat;
        [right; left|left]; reflexivity.
    + right. right. exact IH.
Qed.

Lemma freq_loop_keeps_keys (col : string) (rows : list record)
    (freq : Dict.t nat) (k : string) :
  In k (Dict.keys freq) -> In k (Dict.keys (freq_loop col rows freq)).
Proof.
  revert freq. induction rows as [|r rows IH]; intros freq Hk; simpl; [exact Hk|].
  destruct (String.eqb (cell r col) ""); apply IH; [exact Hk|].
  apply keys_set. right. exact Hk.
Qed.

Lemma freq_loop_nil_iff (col : string) (rows : list record) :
  freq_loop col rows [] = [] <-> forall r, In r rows -> cell r col = "".
Proof.
  induction rows as [|r rows IH]; simpl.
  - split; [intros _ r []|reflexivity].
  - destruct (String.eqb (cell r col) "") eqn:E.
    + apply String.eqb_eq in E. rewrite IH. split.
      * intros H r' [<-|Hr']; [exact E|apply H, Hr'].
      * intros H r' Hr'. apply H. right. exact Hr'.
    + apply String.eqb_neq in E. split.
      * intros H. exfalso.
        assert (Hin : In (cell r col)
                         (Dict.keys (freq_loop col rows [ (cell r col, 1) ]))).
        { apply freq_loop_keeps_keys. left. reflexivity. }
        rewrite H in Hin. destruct Hin.
      * intros H. exfalso. apply E, H. left. reflexivity.
Qed.

(** [most_frequent] returns nothing exactly when every cell of the column is
    empty once stripped; the lookup [freq[k]] of the source never fails. *)
Lemma most_frequent_none_iff (rows : list record) (col : string) :
  most_frequent rows col = None <-> forall r, In r rows -> cell r col = "".
Proof.
  rewrite <- freq_loop_nil_iff. unfold most_frequent.
  destruct (freq_loop col rows []) as [|[k0 n0] freq] eqn:E.
  - split; reflexivity.
  - cbn [Dict.keys map fst].
    pose proof (max_key_in ((k0, n0) :: freq) k0 (map fst freq)) as Hin.
    destruct (Dict.get ((k0, n0) :: freq)
                (max_key ((k0, n0) :: freq) k0 (map fst freq))) as [n|] eqn:G.
    + split; discriminate.
    + apply get_none_iff in G. contradiction.
Qed.

(** * Further properties *)

(** ** The most frequent value *)

Lemma snoc_split {A : Type} (l1 l2 m : list A) (k x : A) :
  (l1 ++ k :: l2 = m ++ [x])%list ->
  (l2 = [] /\ k = x /\ l1 = m)
  \/ exists l2', l2 = (l2' ++ [x])%list /\ m = (l1 ++ k :: l2')%list.
Proof.
  intros H. destruct (exists_last (l := k :: l2)) as [t [y Hy]]; [discriminate|].
  destruct l2 as [|b l2] using rev_ind.
  - left. change (l1 ++ [k] = m ++ [x])%list in H.
    apply app_inj_tail in H. destruct H as [-> ->]. auto.
  - right. exists l2. clear IHl2.
    rewrite app_comm_cons, app_assoc in H. apply app_inj_tail in H.
    destruct H as [<- ->]. auto.
Qed.

Lemma keys_set_eq {V : Type} (d : Dict.t V) (k : string) (v : V) :
  Dict.keys (Dict.set d k v)
  = if str_in k (Dict.keys d) then Dict.keys d else (Dict.keys d ++ [k])%list.
Proof.
  induction d as [|[k0 v0] d IH]; simpl; [reflexivity|].
  rewrite (String.eqb_sym k k0).
  destruct (String.eqb k0 k) eqn:E; simpl; [reflexivity|].
  unfold str_in, Dict.keys in *. rewrite IH.
  destruct (existsb (String.eqb k) (map fst d)); reflexivity.
Qed.

Lemma freq_loop_app (col : string) (rows1 rows2 : list record) (freq : Dict.t nat) :
  freq_loop col (rows1 ++ rows2)%list freq
  = freq_loop col rows2 (freq_loop col rows1 freq).
Proof.
  revert freq. induction rows1 as [|r rows1 IH]; intros freq; simpl; [reflexivity|].
  destruct (String.eqb (cell r col) ""); apply IH.
Qed.

Lemma occurrences_snoc (col v : string) (rows : list record) (r : record) :
  occurrences col v (rows ++ [r])%list
  = occurrences col v rows + (if String.eqb (cell r col) v then 1 else 0).
Proof.
  unfold occurrences. rewrite filter_app, length_app. simpl.
  destruct (String.eqb (cell r col) v); reflexivity.
Qed.

Lemma occurrences_pos_iff (col v : string) (rows : list record) :
  0 < occurrences col v rows <-> exists r, In r rows /\ cell r col = v.
Proof.
  unfold occurrences. induction rows as [|r rows IH]; simpl.
  - split; [lia|intros [r [[] _]]].
  - destruct (String.eqb (cell r col) v) eqn:E; simpl.
    + apply String.eqb_eq in E. split; [|lia]. intros _. exists r. auto.
    + apply String.eqb_neq in E. rewrite IH. split.
      * intros [r' [H1 H2]]. exists r'. auto.
      * intros [r' [[<-|H1] H2]]; [contradiction|]. exists r'. auto.
Qed.

(** What the frequency dict holds after the loop over [rows]. *)
Lemma freq_loop_invariant (col : string) (rows : list record) :
  let freq := freq_loop col rows [] in
  NoDup (Dict.keys freq)
  /\ (forall v, Dict.get freq v
                = if String.eqb v "" || (occurrences col v rows =? 0)%nat
                  then None else Some (occurrences col v rows))
  /\ (forall l1 k l2 v before r after,
        Dict.keys freq = (l1 ++ k :: l2)%list -> In v l2 ->
        rows = (before ++ r :: after)%list -> cell r col = v ->
        exists r', In r' before /\ cell r' col = k).
Proof.
  induction rows as [|r rows IH] using rev_ind.
  - simpl. split; [constructor|]. split.
    + intros v. rewrite orb_true_r. reflexivity.
    + intros l1 k l2 v before r after H. destruct l1; discriminate.
  - cbv zeta in *. rewrite freq_loop_app. simpl.
    destruct IH as [Hnd [Hget Hord]].
    set (F := freq_loop col rows []) in *.
    assert (Hkey : forall k, In k (Dict.keys F) ->
                   k <> "" /\ exists r', In r' rows /\ cell r' col = k).
    { intros k Hk. destruct (Dict.get F k) as [n|] eqn:G.
      - rewrite Hget in G.
        destruct (String.eqb k "") eqn:E1; [discriminate|].
        destruct (occurrences col k rows =? 0)%nat eqn:E2; [discriminate|].
        apply String.eqb_neq in E1. apply Nat.eqb_neq in E2.
        split; [exact E1|]. apply occurrences_pos_iff. lia.
      - apply get_none_iff in G. contradiction. }
    destruct (String.eqb (cell r col) "") eqn:Eblank.
    + apply String.eqb_eq in Eblank.
      split; [exact Hnd|]. split.
      * intros v. rewrite Hget, occurrences_snoc, Eblank.
        destruct (String.eqb v "") eqn:E; [reflexivity|].
        rewrite (String.eqb_sym "" v), E, Nat.add_0_r. reflexivity.
      * intros l1 k l2 v before r1 after Hk Hv Hsplit Hcell.
        symmetry in Hsplit. apply snoc_split in Hsplit.
        destruct Hsplit as [[_ [-> _]]|[after' [_ Hrows]]].
        -- exfalso. assert (Hin : In v (Dict.keys F)).
           { rewrite Hk. apply in_or_app. right. right. exact Hv. }
           apply Hkey in Hin. destruct Hin as [Hne _]. congruence.
        -- exact (Hord l1 k l2 v before r1 after' Hk Hv Hrows Hcell).
    + apply String.eqb_neq in Eblank. set (v0 := cell r col) in *.
      assert (Hdef : Dict.get_default F v0 0 = occurrences col v0 rows).
      { unfold Dict.get_default. rewrite Hget.
        destruct (String.eqb v0 "") eqn:E; [apply String.eqb_eq in E; contradiction|].
        simpl. destruct (occurrences col v0 rows =? 0)%nat eqn:E2; [|reflexivity].
        apply Nat.eqb_eq in E2. lia. }
      assert (Hin0 : str_in v0 (Dict.keys F) = true <-> 0 < occurrences col v0 rows).
      { rewrite str_in_iff. split.
        - intros H. apply Hkey in H. apply occurrences_pos_iff. tauto.
        - intros H. destruct (Dict.get F v0) eqn:G.
          + eapply get_some_in_keys. exact G.
          + rewrite Hget in G. 
            destruct (String.eqb v0 "") eqn:E; [apply String.eqb_eq in E; contradiction|].
            simpl in G. destruct (occurrences col v0 rows =? 0)%nat eqn:E2; [|discriminate].
            apply Nat.eqb_eq in E2. lia. }
      split; [|split].
      * rewrite keys_set_eq. destruct (str_in v0 (Dict.keys F)) eqn:E; [exact Hnd|].
        apply NoDup_app; [exact Hnd|constructor; [intros []|constructor]|].
        intros x Hx [<-|[]]. apply str_in_iff in Hx. congruence.
      * intros v. rewrite get_set, occurrences_snoc. fold v0.
        destruct (String.eqb v0 v) eqn:E.
        -- apply String.eqb_eq in E. subst v. rewrite Hdef.
           destruct (String.eqb v0 "") eqn:E1; [apply String.eqb_eq in E1; contradiction|].
           simpl. destruct (occurrences col v0 rows + 1 =? 0)%nat eqn:E2; [|reflexivity].
           apply Nat.eqb_eq in E2. lia.
        -- rewrite Hget, Nat.add_0_r. reflexivity.
      * intros l1 k l2 v before r1 after Hk Hv Hsplit Hcell.
        rewrite keys_set_eq in Hk.
        symmetry in Hsplit. apply snoc_split in Hsplit.
        destruct (str_in v0 (Dict.keys F)) eqn:E.
        -- destruct Hsplit as [[_ [-> ->]]|[after' [_ Hrows]]].
           ++ assert (Hin : In k (Dict.keys F)).
              { rewrite Hk. apply in_or_app. right. left. reflexivity. }
              apply Hkey in Hin. tauto.
           ++ exact (Hord l1 k l2 v before r1 after' Hk Hv Hrows Hcell).
        -- symmetry in Hk. apply snoc_split in Hk.
           destruct Hk as [[-> _]|[l2' [-> Hk]]]; [destruct Hv|].
           assert (Hin : In k (Dict.keys F)).
           { rewrite Hk. apply in_or_app. right. left. reflexivity. }
           apply in_app_or in Hv. destruct Hv as [Hv|[<-|[]]].
           ++ destruct Hsplit as [[_ [-> ->]]|[after' [_ Hrows]]].
              ** exfalso. assert (Hv' : In v0 (Dict.keys F)).
                 { rewrite Hk. apply in_or_app. right. right. subst v0. rewrite Hcell. exact Hv. }
                 apply str_in_iff in Hv'. congruence.
              ** exact (Hord l1 k l2' v before r1 after' Hk Hv Hrows Hcell).
           ++ destruct Hsplit as [[_ [-> ->]]|[after' [_ Hrows]]].
              ** apply Hkey in Hin. tauto.
              ** exfalso. assert (Hpos : 0 < occurrences col v0 rows).
                 { apply occurrences_pos_iff. exists r1. split; [|exact Hcell].
                   rewrite Hrows. apply in_elt. }
                 apply Hin0 in Hpos. congruence.
Qed.

Lemma max_key_first_maximum (freq : Dict.t nat) (ks l1 l2 : list string) (b : string) :
  (forall y, In y l1 -> Dict.get_default freq y 0 < Dict.get_default freq b 0) ->
  (forall y, In y l2 -> Dict.get_default freq y 0 <= Dict.get_default freq b 0) ->
  exists m1 m2,
    (l1 ++ b :: l2 ++ ks = m1 ++ max_key freq b ks :: m2)%list
    /\ (forall y, In y m1 ->
          Dict.get_default freq y 0 < Dict.get_default freq (max_key freq b ks) 0)
    /\ (forall y, In y m2 ->
          Dict.get_default freq y 0 <= Dict.get_default freq (max_key freq b ks) 0).
Proof.
  unfold max_key. revert l1 l2 b. induction ks as [|x ks IH]; intros l1 l2 b H1 H2.
  - exists l1, l2. rewrite app_nil_r. auto.
  - simpl fold_left.
    destruct (Dict.get_default freq b 0 <? Dict.get_default freq x 0)%nat eqn:E.
    + apply Nat.ltb_lt in E.
      destruct (IH (l1 ++ b :: l2)%list [] x) as [m1 [m2 [Heq H]]].
      * intros y Hy. apply in_app_or in Hy. destruct Hy as [Hy|[<-|Hy]].
        -- specialize (H1 y Hy). lia.
        -- exact E.
        -- specialize (H2 y Hy). lia.
      * intros y [].
      * exists m1, m2. split; [|exact H]. rewrite <- Heq.
        rewrite <- !app_assoc. reflexivity.
    + apply Nat.ltb_ge in E.
      destruct (IH l1 (l2 ++ [x])%list b) as [m1 [m2 [Heq H]]].
      * exact H1.
      * intros y Hy. apply in_app_or in Hy. destruct Hy as [Hy|[<-|[]]].
        -- exact (H2 y Hy).
        -- exact E.
      * exists m1, m2. split; [|exact H]. rewrite <- Heq.
        rewrite <- !app_assoc. reflexivity.
Qed.

Lemma occurrences_blank_bound (col k : string) (rows : list record) :
  k <> "" -> occurrences col k rows + blank_count col rows <= List.length rows.
Proof.
  intros Hk. unfold occurrences, blank_count.
  induction rows as [|r rows IH]; simpl; [lia|].
  destruct (String.eqb (cell r col) k) eqn:E1;
    destruct (String.eqb (cell r col) "") eqn:E2; simpl; try lia.
  apply String.eqb_eq in E1, E2. congruence.
Qed.

(** The value [most_frequent] returns, its count, and how ties are broken. *)
Lemma most_frequent_some (rows : list record) (col k : string) (n : nat) :
  most_frequent rows col = Some (k, n) ->
  k <> ""
  /\ n = occurrences col k rows
  /\ 0 < n
  /\ n + blank_count col rows <= List.length rows
  /\ (forall v, v <> "" -> occurrences col v rows <= n)
  /\ (forall before r after,
        rows = (before ++ r :: after)%list ->
        cell r col <> "" ->
        occurrences col (cell r col) rows = n ->
        cell r col = k \/ exists r', In r' before /\ cell r' col = k).
Proof.
  intros Hmf. unfold most_frequent in Hmf.
  destruct (freq_loop_invariant col rows) as [_ [Hget Hord]]. cbv zeta in Hget, Hord.
  set (F := freq_loop col rows []) in *.
  destruct (Dict.keys F) as [|k0 ks] eqn:Ekeys; [discriminate|].
  destruct (max_key_first_maximum F ks [] [] k0) as [m1 [m2 [Heq [Hlt Hle]]]];
    [intros y []|intros y []|].
  simpl in Heq.
  remember (max_key F k0 ks) as km eqn:Ekm.
  destruct (Dict.get F km) as [n'|] eqn:G; [|discriminate].
  injection Hmf as -> ->.
  assert (Hcnt : forall v, v <> "" -> Dict.get_default F v 0 = occurrences col v rows).
  { intros v Hv. unfold Dict.get_default. rewrite Hget.
    apply String.eqb_neq in Hv. rewrite Hv. simpl.
    destruct (occurrences col v rows =? 0)%nat eqn:E; [|reflexivity].
    apply Nat.eqb_eq in E. lia. }
  assert (Hkeys : forall v, In v (Dict.keys F) <-> v <> "" /\ 0 < occurrences col v rows).
  { intros v. split.
    - intros Hin. destruct (Dict.get F v) eqn:G'.
      + rewrite Hget in G'. destruct (String.eqb v "") eqn:E1; [discriminate|].
        destruct (occurrences col v rows =? 0)%nat eqn:E2; [discriminate|].
        apply String.eqb_neq in E1. apply Nat.eqb_neq in E2. split; [exact E1|lia].
      + apply get_none_iff in G'. contradiction.
    - intros [Hv Hpos]. apply (get_some_in_keys F v (occurrences col v rows)).
      rewrite Hget. apply String.eqb_neq in Hv. rewrite Hv. simpl.
      destruct (occurrences col v rows =? 0)%nat eqn:E; [|reflexivity].
      apply Nat.eqb_eq in E. lia. }
  assert (Hk : k <> "" /\ 0 < occurrences col k rows).
  { apply Hkeys. eapply get_some_in_keys. exact G. }
  destruct Hk as [Hk Hpos].
  assert (Hn : n = occurrences col k rows).
  { pose proof (Hcnt k Hk) as H. unfold Dict.get_default in H. rewrite G in H. exact H. }
  split; [exact Hk|]. split; [exact Hn|]. split; [lia|].
  split; [rewrite Hn; apply occurrences_blank_bound, Hk|].
  assert (Hpart : forall v, v <> "" -> 0 < occurrences col v rows ->
            (In v m1 /\ occurrences col v rows < n) \/ v = k
            \/ (In v m2 /\ occurrences col v rows <= n)).
  { intros v Hv Hvpos.
    assert (Hin : In v (Dict.keys F)) by (apply Hkeys; auto).
    rewrite Ekeys, Heq in Hin. apply in_app_or in Hin.
    destruct Hin as [Hin|[<-|Hin]].
    - left. split; [exact Hin|]. specialize (Hlt v Hin).
      rewrite (Hcnt v Hv), (Hcnt k Hk) in Hlt. lia.
    - right. left. reflexivity.
    - right. right. split; [exact Hin|]. specialize (Hle v Hin).
      rewrite (Hcnt v Hv), (Hcnt k Hk) in Hle. lia. }
  split.
  - intros v Hv. destruct (Nat.eq_dec (occurrences col v rows) 0) as [->|Hnz]; [lia|].
    destruct (Hpart v Hv) as [[_ H]|[->|[_ H]]]; lia.
  - intros before r after Hrows Hcell Htie.
    destruct (Hpart (cell r col) Hcell) as [[_ H]|[H|[Hin _]]]; [lia|lia|auto|].
    right. apply (Hord m1 k m2 (cell r col) before r after); auto.
Qed.

(** X1: [most_frequent] returns nothing exactly when every cell of the column
    is empty once stripped (so also for the empty dataset and for a column no
    record has); otherwise it returns a non-empty stripped value together
    with the number of records holding it, no other value occurs more often,
    and among the values that occur as often the returned one is the one met
    first in record order. *)
Theorem most_frequent_spec (rows : list record) (col : string) :
  (most_frequent rows col = None <-> forall r, In r rows -> cell r col = "")
  /\ (forall k n, most_frequent rows col = Some (k, n) ->
        k <> ""
        /\ n = occurrences col k rows
        /\ 0 < n
        /\ n + blank_count col rows <= List.length rows
        /\ (forall v, v <> "" -> occurrences col v rows <= n)
        /\ (forall before r after,
              rows = (before ++ r :: after)%list ->
              cell r col <> "" ->
              occurrences col (cell r col) rows = n ->
              cell r col = k \/ exists r', In r' before /\ cell r' col = k)).
Proof.
  split; [apply most_frequent_none_iff|].
  intros k n. apply most_frequent_some.
Qed.

(** ** The artifacts computed by [main] *)

Lemma flat_map_ext_on {A B : Type} (f g : A -> list B) (l : list A) :
  (forall x, In x l -> f x = g x) -> flat_map f l = flat_map g l.
Proof.
  induction l as [|a l IH]; intros H; simpl; [reflexivity|].
  rewrite (H a (or_introl eq_refl)), IH; [reflexivity|].
  intros x Hx. apply H. right. exact Hx.
Qed.

Section PipelineFacts.
Context {R : PyRuntime}.

Lemma stats_loop_get (rows : list record) (cols : list string)
    (stats_map : Dict.t Stats.t) (c : string) :
  Dict.get (stats_loop rows cols stats_map) c
  = if str_in c cols
    then match basic_stats rows c with
         | Some s => Some s
         | None => Dict.get stats_map c
         end
    else Dict.get stats_map c.
Proof.
  revert stats_map. induction cols as [|k cols IH]; intros stats_map;
    [reflexivity|].
  cbn [stats_loop].
  change (str_in c (k :: cols)) with (String.eqb c k || str_in c cols).
  destruct (String.eqb c k) eqn:E; cbn [orb].
  - apply String.eqb_eq in E. subst k.
    destruct (basic_stats rows c) as [s|] eqn:B; rewrite IH.
    + rewrite get_set, String.eqb_refl.
      destruct (str_in c cols); reflexivity.
    + destruct (str_in c cols); reflexivity.
  - destruct (basic_stats rows k) as [s|]; rewrite IH; [|reflexivity].
    rewrite get_set, String.eqb_sym, E. reflexivity.
Qed.

Lemma numeric_none_iff_blank (rows : list record) (c : string) :
  is_numeric_column rows c = true ->
  (basic_stats rows c = None <-> forall r, In r rows -> cell r c = "").
Proof.
  intros Hnum. rewrite basic_stats_unfold.
  assert (H : parsed_values c rows = [] <-> forall r, In r rows -> cell r c = "").
  { rewrite parsed_values_nil_iff. rewrite is_numeric_column_iff in Hnum.
    unfold cell_value. split; intros H r Hr; specialize (H r Hr).
    - destruct (String.eqb (cell r c) "") eqn:E; [apply String.eqb_eq, E|].
      apply String.eqb_neq in E. exfalso. exact (Hnum r Hr E H).
    - rewrite H. reflexivity. }
  rewrite <- H. destruct (parsed_values c rows); split; congruence.
Qed.

(** X2: the statistics map [main] builds holds, for each numeric column, what
    [basic_stats] returns and nothing else; a numeric column is absent from it
    exactly when all its cells are empty once stripped, and the summary of the
    report has one line per numeric column with at least one value, in header
    order. *)
Theorem stats_map_spec (rows : list record) :
  let numeric_cols := detect_numeric_columns rows in
  let stats_map := stats_loop rows numeric_cols [] in
  (forall c s, Dict.get stats_map c = Some s <->
               In c numeric_cols /\ basic_stats rows c = Some s)
  /\ (forall c, In c numeric_cols ->
        (Dict.get stats_map c = None <-> forall r, In r rows -> cell r c = ""))
  /\ summary_lines numeric_cols stats_map
     = flat_map (fun c => match basic_stats rows c with
                          | Some s => [ stats_line c s ]
                          | None => []
                          end) numeric_cols.
Proof.
  intros numeric_cols stats_map.
  assert (Hget : forall c, Dict.get stats_map c
                           = if str_in c numeric_cols then basic_stats rows c else None).
  { intros c. unfold stats_map. rewrite stats_loop_get. simpl.
    destruct (str_in c numeric_cols); [|reflexivity].
    destruct (basic_stats rows c); reflexivity. }
  split; [|split].
  - intros c s. rewrite Hget. destruct (str_in c numeric_cols) eqn:E.
    + apply str_in_iff in E. tauto.
    + split; [discriminate|]. intros [H _]. apply str_in_iff in H. congruence.
  - intros c Hc. rewrite Hget. pose proof Hc as Hin. apply str_in_iff in Hin.
    rewrite Hin. apply numeric_none_iff_blank.
    unfold numeric_cols in Hc. rewrite detect_numeric_columns_filter in Hc.
    apply filter_In in Hc. tauto.
  - unfold summary_lines. apply flat_map_ext_on. intros c Hc. 
    rewrite Hget. apply str_in_iff in Hc. rewrite Hc. reflexivity.
Qed.

Lemma not_numeric_has_rejected_cell (rows : list record) (c : string) :
  is_numeric_column rows c = false ->
  exists r, In r rows /\ cell r c <> "" /\ float_of_str (cell r c) = None.
Proof.
  unfold is_numeric_column, parses. induction rows as [|r rows IH]; simpl;
    [discriminate|].
  intros H. apply andb_false_iff in H. destruct H as [H|H].
  - exists r. apply orb_false_iff in H. destruct H as [H1 H2].
    apply String.eqb_neq in H1. split; [left; reflexivity|]. split; [exact H1|].
    destruct (float_of_str (cell r c)); [discriminate|reflexivity].
  - destruct (IH H) as [r' [Hin Hr']]. exists r'. split; [right; exact Hin|exact Hr'].
Qed.

Lemma pipeline_categorical_column (rows : list record) (c : string) :
  first_categorical_column rows (detect_numeric_columns rows) = Some c ->
  (exists r0 rest, rows = r0 :: rest /\ In c (Dict.keys r0))
  /\ is_numeric_column rows c = false.
Proof.
  intros H. destruct rows as [|r0 rest]; [discriminate|].
  cbn [first_categorical_column] in H. apply first_not_in_some in H.
  destruct H as [before [after [Hkeys [_ Hnot]]]].
  assert (Hin : In c (Dict.keys r0)) by (rewrite Hkeys; apply in_elt).
  split; [exists r0, rest; auto|].
  destruct (is_numeric_column (r0 :: rest) c) eqn:E; [|reflexivity].
  exfalso. apply Hnot. rewrite detect_numeric_columns_filter.
  apply filter_In. auto.
Qed.

Lemma categorical_has_top (rows : list record) (c : string) :
  first_categorical_column rows (detect_numeric_columns rows) = Some c ->
  (exists r0 rest, rows = r0 :: rest /\ In c (Dict.keys r0))
  /\ ~ In c (detect_numeric_columns rows)
  /\ (exists r, In r rows /\ cell r c <> "" /\ float_of_str (cell r c) = None)
  /\ (exists value n, most_frequent rows c = Some (value, n)).
Proof.
  intros H. destruct (pipeline_categorical_column rows c H) as [Hkey Hnum].
  split; [exact Hkey|]. split.
  - rewrite detect_numeric_columns_filter, filter_In. intros [_ Hn]. congruence.
  - destruct (not_numeric_has_rejected_cell rows c Hnum) as [r [Hr [Hne Hrej]]].
    split; [exists r; auto|].
    destruct (most_frequent rows c) as [[value n]|] eqn:E; [eauto|].
    exfalso. apply Hne. apply (proj1 (most_frequent_none_iff rows c) E r Hr).
Qed.

(** X3: the categorical column [main] picks from the classification is a
    column of the first record that is not numeric, so some record holds a
    non-empty cell there that [float] rejects, and [most_frequent] always
    finds a value for it; hence the report [main] builds never holds the line
    "No frequent value computed for ...". *)
Theorem categorical_column_has_top (rows : list record) :
  (forall c, first_categorical_column rows (detect_numeric_columns rows) = Some c ->
     (exists r0 rest, rows = r0 :: rest /\ In c (Dict.keys r0))
     /\ ~ In c (detect_numeric_columns rows)
     /\ (exists r, In r rows /\ cell r c <> "" /\ float_of_str (cell r c) = None)
     /\ (exists value n, most_frequent rows c = Some (value, n)))
  /\ (forall file_name,
        Forall (fun line =>
                  PyStr.startswith "No frequent value computed for '" line = false)
               (pipeline_lines file_name rows)).
Proof.
  split; [intros c; apply categorical_has_top|].
  intros file_name. unfold pipeline_lines. rewrite report_lines_sections.
  set (P := fun line => PyStr.startswith "No frequent value computed for '" line = false).
  assert (Hweak : forall l, Forall (fun line => categorical_line line = false) l ->
                            Forall P l).
  { intros l. apply Forall_impl. intros line Hl. unfold categorical_line in Hl.
    apply orb_false_iff in Hl. destruct Hl as [Hl _].
    apply orb_false_iff in Hl. destruct Hl as [_ Hl]. exact Hl. }
  repeat (apply Forall_app; split).
  - unfold heading_section. repeat (constructor; [reflexivity|]). constructor.
  - apply Hweak. unfold numeric_section.
    destruct (detect_numeric_columns rows) as [|c0 cs].
    + repeat (constructor; [reflexivity|]). constructor.
    + constructor; [reflexivity|]. apply Forall_app. split.
      * apply summary_lines_not_categorical.
      * constructor; [reflexivity|constructor].
  - unfold categorical_section.
    destruct (first_categorical_column rows (detect_numeric_columns rows))
      as [col|] eqn:Ecol; [|constructor].
    destruct (truthy (Some col)); [|constructor].
    destruct (categorical_has_top rows col Ecol) as [_ [_ [_ [value [n Htop]]]]].
    rewrite Htop. repeat (constructor; [reflexivity|]). constructor.
  - apply Hweak, missing_section_not_categorical.
  - unfold notes_section, dominant_note.
    destruct (detect_numeric_columns rows);
      destruct (first_categorical_column rows _) as [col|];
      try destruct (truthy (Some col));
      try destruct (match Some col with Some c => most_frequent rows c | None => None end)
        as [[value n]|];
      try destruct (most_frequent rows col) as [[value n]|];
      destruct (missing_values rows);
      repeat (constructor; [reflexivity|]); constructor.
Qed.

Lemma count_balance (rows : list record) (col : string) :
  List.length (parsed_values col rows) + blank_count col rows
    + rejected_count col rows = List.length rows.
Proof.
  unfold parsed_values, blank_count, rejected_count, cell_value, parses.
  induction rows as [|r rows IH]; simpl; [reflexivity|].
  rewrite length_app.
  destruct (String.eqb (cell r col) ""); simpl; [lia|].
  destruct (float_of_str (cell r col)); simpl; lia.
Qed.

Lemma rejected_zero_iff (rows : list record) (col : string) :
  rejected_count col rows = 0 <-> is_numeric_column rows col = true.
Proof.
  unfold rejected_count, is_numeric_column.
  induction rows as [|r rows IH]; simpl; [tauto|].
  destruct (String.eqb (cell r col) ""); simpl; [exact IH|].
  destruct (parses (cell r col)); simpl; [exact IH|].
  split; discriminate.
Qed.

(** X4: for any column, numeric or not, every record is counted once: the
    count reported by [basic_stats] plus the cells that are empty once
    stripped plus the non-empty cells that [float] rejects is the number of
    records; no statistics are reported when the first term would be zero, and
    no cell is rejected exactly when the column is numeric. *)
Theorem basic_stats_count_balance (rows : list record) (col : string) :
  match basic_stats rows col with
  | Some s =>
      Stats.count s + blank_count col rows + rejected_count col rows
      = List.length rows
      /\ 0 < Stats.count s
  | None => blank_count col rows + rejected_count col rows = List.length rows
  end
  /\ (rejected_count col rows = 0 <-> is_numeric_column rows col = true)
  /\ (forall r, In r rows -> cell r col <> "" ->
                float_of_str (cell r col) = None ->
                0 < rejected_count col rows).
Proof.
  pose proof (count_balance rows col) as H.
  split; [|split].
  - rewrite basic_stats_unfold.
    destruct (parsed_values col rows) as [|x xs]; simpl in *; [exact H|].
    split; [exact H|lia].
  - apply rejected_zero_iff.
  - intros r Hr Hne Hrej.
    destruct (Nat.eq_dec (rejected_count col rows) 0) as [E|E]; [|lia].
    apply rejected_zero_iff in E. rewrite is_numeric_column_iff in E.
    exfalso. exact (E r Hr Hne Hrej).
Qed.

End PipelineFacts.

(** ** Order and growth of the dataset *)

Lemma filter_length_perm {A : Type} (f : A -> bool) (l l' : list A) :
  Permutation l l' -> List.length (filter f l) = List.length (filter f l').
Proof.
  intros H. induction H as [|x l l' _ IH|x y l|l l' l'' _ IH1 _ IH2]; simpl.
  - reflexivity.
  - destruct (f x); simpl; rewrite IH; reflexivity.
  - destruct (f x), (f y); reflexivity.
  - rewrite IH1. exact IH2.
Qed.

Lemma forallb_perm {A : Type} (f : A -> bool) (l l' : list A) :
  Permutation l l' -> forallb f l = forallb f l'.
Proof.
  intros H. induction H as [|x l l' _ IH|x y l|l l' l'' _ IH1 _ IH2]; simpl.
  - reflexivity.
  - rewrite IH. reflexivity.
  - destruct (f x), (f y); reflexivity.
  - rewrite IH1. exact IH2.
Qed.

Section RecordOrder.
Context {R : PyRuntime}.

Lemma numeric_loop_ext (cols : list string) (rows rows' : list record)
    (numeric : list string) :
  (forall c, is_numeric_column rows c = is_numeric_column rows' c) ->
  numeric_loop cols rows numeric = numeric_loop cols rows' numeric.
Proof.
  intros H. rewrite !numeric_loop_spec. f_equal. apply filter_ext. exact H.
Qed.

Lemma missing_loop_ext (cols : list string) (rows rows' : list record)
    (out : Dict.t nat) :
  (forall c, blank_count c rows = blank_count c rows') ->
  missing_loop cols rows out = missing_loop cols rows' out.
Proof.
  intros H. revert out. induction cols as [|c cols IH]; intros out; [reflexivity|].
  cbn [missing_loop]. rewrite !count_missing_spec, H. apply IH.
Qed.

(** X5: the order of the records after the first does not matter to the
    classification (the early exit of its inner loop changes no result), to
    the missing-value counts, to the count of [basic_stats] or to the count
    of the most frequent value. *)
Theorem record_order_is_irrelevant (r0 : record) (rest rest' : list record) :
  Permutation rest rest' ->
  detect_numeric_columns (r0 :: rest) = detect_numeric_columns (r0 :: rest')
  /\ missing_values (r0 :: rest) = missing_values (r0 :: rest')
  /\ (forall col,
        option_map Stats.count (basic_stats (r0 :: rest) col)
        = option_map Stats.count (basic_stats (r0 :: rest') col))
  /\ (forall col,
        option_map snd (most_frequent (r0 :: rest) col)
        = option_map snd (most_frequent (r0 :: rest') col)).
Proof.
  intros Hperm.
  assert (Hp : Permutation (r0 :: rest) (r0 :: rest')) by (constructor; exact Hperm).
  split; [|split; [|split]].
  - unfold detect_numeric_columns. apply numeric_loop_ext.
    intros c. apply forallb_perm, Hp.
  - unfold missing_values. apply missing_loop_ext.
    intros c. apply filter_length_perm, Hp.
  - intros col.
    pose proof (count_balance (r0 :: rest) col) as H1.
    pose proof (count_balance (r0 :: rest') col) as H2.
    assert (Hb : blank_count col (r0 :: rest) = blank_count col (r0 :: rest'))
      by (apply filter_length_perm, Hp).
    assert (Hr : rejected_count col (r0 :: rest) = rejected_count col (r0 :: rest'))
      by (apply filter_length_perm, Hp).
    assert (Hl : List.length (r0 :: rest) = List.length (r0 :: rest'))
      by (apply Permutation_length, Hp).
    rewrite !basic_stats_unfold.
    destruct (parsed_values col (r0 :: rest)) as [|x xs];
      destruct (parsed_values col (r0 :: rest')) as [|y ys];
      cbn [option_map Stats.count]; simpl List.length in *; try reflexivity;
      try (exfalso; lia).
    f_equal. lia.
  - intros col.
    assert (Hocc : forall v, occurrences col v (r0 :: rest)
                             = occurrences col v (r0 :: rest'))
      by (intros v; apply filter_length_perm, Hp).
    pose proof (most_frequent_none_iff (r0 :: rest) col) as Hn1.
    pose proof (most_frequent_none_iff (r0 :: rest') col) as Hn2.
    pose proof (most_frequent_some (r0 :: rest) col) as Hs1.
    pose proof (most_frequent_some (r0 :: rest') col) as Hs2.
    destruct (most_frequent (r0 :: rest) col) as [[k n]|] eqn:E1;
      destruct (most_frequent (r0 :: rest') col) as [[k' n']|] eqn:E2;
      cbn [option_map snd].
    + destruct (Hs1 k n eq_refl) as [Hk [Hn [_ [_ [Hmax _]]]]].
      destruct (Hs2 k' n' eq_refl) as [Hk' [Hn' [_ [_ [Hmax' _]]]]].
      specialize (Hmax k' Hk'). specialize (Hmax' k Hk).
      rewrite Hocc in Hmax. rewrite <- Hocc in Hmax'. f_equal. lia.
    + exfalso. destruct (Hs1 k n eq_refl) as [Hk [Hn [Hpos _]]].
      assert (Hex : exists r, In r (r0 :: rest) /\ cell r col = k).
      { apply occurrences_pos_iff. lia. }
      destruct Hex as [r [Hr Hc]]. apply Hk. rewrite <- Hc.
      apply (proj1 Hn2 eq_refl). apply (Permutation_in _ Hp). exact Hr.
    + exfalso. destruct (Hs2 k' n' eq_refl) as [Hk [Hn [Hpos _]]].
      assert (Hex : exists r, In r (r0 :: rest') /\ cell r col = k').
      { apply occurrences_pos_iff. lia. }
      destruct Hex as [r [Hr Hc]]. apply Hk. rewrite <- Hc.
      apply (proj1 Hn1 eq_refl). apply (Permutation_in _ (Permutation_sym Hp)). exact Hr.
    + reflexivity.
Qed.

Lemma blank_count_app (c : string) (rows more : list record) :
  blank_count c (rows ++ more)%list = blank_count c rows + blank_count c more.
Proof. unfold blank_count. rewrite filter_app, length_app. reflexivity. Qed.

(** X6: appending records to a non-empty dataset can only remove numeric
    columns (a column stays numeric exactly when it is numeric in the added
    records too), adds the new blank cells to each missing-value count, and
    leaves the choice of the categorical column to the numeric list alone. *)
Theorem appending_records (r0 : record) (rest more : list record) :
  (forall c, In c (detect_numeric_columns (r0 :: rest ++ more)%list) <->
             In c (detect_numeric_columns (r0 :: rest))
             /\ is_numeric_column more c = true)
  /\ (forall c, In c (Dict.keys r0) ->
        Dict.get_default (missing_values (r0 :: rest ++ more)%list) c 0
        = Dict.get_default (missing_values (r0 :: rest)) c 0
          + blank_count c more)
  /\ (forall numeric_cols,
        first_categorical_column (r0 :: rest ++ more)%list numeric_cols
        = first_categorical_column (r0 :: rest) numeric_cols).
Proof.
  split; [|split; [|reflexivity]].
  - intros c. rewrite !detect_numeric_columns_filter, !filter_In.
    change (r0 :: rest ++ more)%list with ((r0 :: rest) ++ more)%list.
    unfold is_numeric_column at 1. rewrite forallb_app.
    fold (is_numeric_column (r0 :: rest) c). fold (is_numeric_column more c).
    rewrite andb_true_iff. tauto.
  - intros c Hc.
    rewrite (missing_values_default (r0 :: rest ++ more) c Hc).
    rewrite (missing_values_default (r0 :: rest) c Hc).
    change (r0 :: rest ++ more)%list with ((r0 :: rest) ++ more)%list.
    apply blank_count_app.
Qed.

End RecordOrder.

(** ** The report and the run, continued *)

Lemma set_fresh {V : Type} (d : Dict.t V) (k : string) (v : V) :
  ~ In k (Dict.keys d) -> Dict.set d k v = (d ++ [ (k, v) ])%list.
Proof.
  induction d as [|[k0 v0] d IH]; simpl; intros H; [reflexivity|].
  destruct (String.eqb k0 k) eqn:E.
  - apply String.eqb_eq in E. exfalso. apply H. left. exact E.
  - rewrite IH; [reflexivity|]. intros Hin. apply H. right. exact Hin.
Qed.

Section RunFacts.
Context {R : PyRuntime}.

Lemma summary_lines_indented (numeric_cols : list string)
    (stats_map : Dict.t Stats.t) (line : string) :
  In line (summary_lines numeric_cols stats_map) ->
  exists rest, line = String " " (String " " rest).
Proof.
  unfold summary_lines. intros H. apply in_flat_map in H.
  destruct H as [c [_ H]]. destruct (Dict.get stats_map c) as [s|]; [|destruct H].
  destruct H as [<-|[]]. eexists. reflexivity.
Qed.

Lemma missing_lines_indented (missing : Dict.t nat) (line : string) :
  In line (map missing_line missing) ->
  exists rest, line = String " " (String " " rest).
Proof.
  intros H. apply in_map_iff in H. destruct H as [cn [<- _]].
  eexists. reflexivity.
Qed.

Ltac split_in :=
  repeat match goal with
         | H : In _ (summary_lines _ _) |- _ =>
             apply summary_lines_indented in H; destruct H as [? H]
         | H : In _ (map missing_line _) |- _ =>
             apply missing_lines_indented in H; destruct H as [? H]
         | H : In _ (_ ++ _)%list |- _ => apply in_app_or in H; destruct H as [H|H]
         | H : In _ (_ :: _) |- _ => destruct H as [H|H]
         | H : In _ [] |- _ => destruct H
         end.

Ltac find_line :=
  repeat first [ left; reflexivity | right | apply in_or_app; right ].

(** X7: each conditional block of the report appears exactly under its
    condition: the summary heading and the variation note when there are
    numeric columns, "No numeric columns detected." when there are none, the
    "Missing values:" heading when the missing-value mapping is non-empty and
    the note "- No missing values detected." when it is empty. *)
Theorem report_branches (file_name : string) (rows_count : nat)
    (numeric_cols : list string) (stats_map : Dict.t Stats.t)
    (cat_col : option string) (cat_top : option (string * nat))
    (missing : Dict.t nat) :
  let lines := report_lines file_name rows_count numeric_cols stats_map
                            cat_col cat_top missing in
  (In "Numeric columns summary:" lines <-> numeric_cols <> [])
  /\ (In "No numeric columns detected." lines <-> numeric_cols = [])
  /\ (In "- Numeric spread suggests basic variation present." lines <->
      numeric_cols <> [])
  /\ (In "Missing values:" lines <-> missing <> [])
  /\ (In "- No missing values detected." lines <-> missing = []).
Proof.
  intros lines. unfold lines. rewrite report_lines_sections.
  unfold heading_section, numeric_section, categorical_section,
    missing_section, notes_section, dominant_note.
  destruct numeric_cols as [|c0 cs];
    (destruct cat_col as [col|]; [destruct (truthy (Some col))|]);
    destruct cat_top as [[value n]|];
    destruct missing as [|m0 ms];
    cbn [app];
    repeat split; intros H;
    try discriminate; try reflexivity;
    try (exfalso; split_in; try discriminate; try (subst; discriminate); fail);
    try (find_line; fail); try congruence.
Qed.

(** X8: when the input file exists, the reader yields rows whose first one
    has no more fields than the header, and the output path is not a
    directory, [main] returns, prints the two lines "Loaded {n} rows." and
    "Report written to: {path}", leaves the report in the output file and
    changes no other file; in particular the input file is intact. *)
Theorem main_success (here : string) (w : world) (text : string)
    (raw : list csv_row) :
  fs w (csv_path here) = Some (File text) ->
  csv_rows text = inl raw ->
  first_row_has_surplus text = false ->
  fs w (out_path here) <> Some Directory ->
  snd (main here w) = Returned
  /\ console (fst (main here w))
     = (console w
          ++ [ ("Loaded " ++ PyStr.of_nat (List.length (load_csv text))
                          ++ " rows.")%string;
               ("Report written to: " ++ out_path here)%string ])%list
  /\ fs (fst (main here w)) (out_path here)
     = Some (File (pipeline_text "sales_data.csv" (load_csv text)))
  /\ (forall p, p <> out_path here -> fs (fst (main here w)) p = fs w p)
  /\ fs (fst (main here w)) (csv_path here) = Some (File text).
Proof.
  intros Hin Hraw Hsurplus Hout.
  destruct (main_writes_report here w text raw Hin Hraw Hsurplus Hout)
    as [Hret [Hfs Hcon]].
  split; [exact Hret|]. split; [exact Hcon|].
  assert (Hother : forall p, p <> out_path here -> fs (fst (main here w)) p = fs w p).
  { intros p Hp. rewrite Hfs. apply String.eqb_neq in Hp. rewrite Hp. reflexivity. }
  split; [rewrite Hfs, String.eqb_refl; reflexivity|].
  split; [exact Hother|].
  rewrite Hother; [exact Hin|apply csv_path_not_out_path].
Qed.

(** X9: a run of [main] that ends with an uncaught exception has changed no
    file and has not announced a report: the console holds nothing new, or
    only the line "Loaded {n} rows." of the rows it had read. *)
Theorem main_failure (here : string) (w : world) (exn : string) :
  snd (main here w) = Raised exn ->
  fs (fst (main here w)) = fs w
  /\ (console (fst (main here w)) = console w
      \/ exists text,
           fs w (csv_path here) = Some (File text)
           /\ console (fst (main here w))
              = push (console w)
                     ("Loaded " ++ PyStr.of_nat (List.length (load_csv text))
                                ++ " rows.")).
Proof.
  unfold main, path_exists, read_file.
  destruct (fs w (csv_path here)) as [[text|]|] eqn:Ein; cbn [negb].
  - destruct (csv_rows text) as [raw|err].
    + cbv zeta. destruct (first_row_has_surplus text).
      * cbn [fst snd fs console print]. intros _. split; [reflexivity|].
        right. exists text. auto.
      * unfold write_report, write_file. cbn [fs print].
        destruct (fs w (out_path here)) as [[old|]|] eqn:Eout;
          cbn [fst snd]; try discriminate.
        intros _. split; [reflexivity|]. right. exists text. auto.
    + cbn [fst snd]. intros _. split; [reflexivity|]. left. reflexivity.
  - cbn [fst snd]. intros _. split; [reflexivity|]. left. reflexivity.
  - cbn [fst snd]. discriminate.
Qed.

(** X10: [load_csv] keeps the rows and the keys of the reader and turns the
    reader's filler for a missing field into the empty string, so such a
    field reads like an absent key and is counted as a blank cell of its
    column. *)
Theorem load_csv_fills_missing_fields (text : string) :
  List.length (load_csv text) = List.length (csv_DictReader text)
  /\ Forall2 (fun (row : Dict.t (option string)) (loaded : record) =>
                Dict.keys loaded = Dict.keys row
                /\ forall c, raw_cell loaded c
                             = match Dict.get row c with
                               | Some (Some v) => v
                               | _ => ""
                               end)
             (csv_DictReader text) (load_csv text)
  /\ (forall c, blank_count c (load_csv text)
                = List.length
                    (filter (fun row : Dict.t (option string) =>
                               match Dict.get row c with
                               | Some (Some v) => String.eqb (PyStr.strip v) ""
                               | _ => true
                               end) (csv_DictReader text))).
Proof.
  unfold load_csv.
  set (fill := fun kv : string * option string =>
                 (fst kv, match snd kv with Some v => v | None => "" end)).
  assert (Hraw : forall (row : Dict.t (option string)) c,
             raw_cell (map fill row) c
             = match Dict.get row c with Some (Some v) => v | _ => "" end).
  { intros row c. unfold raw_cell, Dict.get_default.
    induction row as [|[k [v|]] row IH]; simpl; [reflexivity| |];
      destruct (String.eqb k c); try reflexivity; exact IH. }
  split; [apply length_map|]. split.
  - induction (csv_DictReader text) as [|row rows IH]; simpl; constructor;
      [|exact IH].
    split; [unfold Dict.keys; rewrite map_map; reflexivity|apply Hraw].
  - intros c. unfold blank_count.
    induction (csv_DictReader text) as [|row rows IH]; simpl; [reflexivity|].
    unfold cell at 1. fold (raw_cell (map fill row) c). rewrite Hraw.
    destruct (Dict.get row c) as [[v|]|]; simpl;
      try (destruct (String.eqb (PyStr.strip v) "")); simpl; rewrite IH; reflexivity.
Qed.

Lemma missing_loop_fresh (cols : list string) (rows : list record)
    (out : Dict.t nat) :
  NoDup cols -> (forall c, In c cols -> ~ In c (Dict.keys out)) ->
  missing_loop cols rows out
  = (out ++ map (fun c => (c, blank_count c rows))
                (filter (fun c => (0 <? blank_count c rows)%nat) cols))%list.
Proof.
  revert out. induction cols as [|c cols IH]; intros out Hnd Hfresh.
  - simpl. rewrite app_nil_r. reflexivity.
  - cbn [missing_loop filter]. rewrite count_missing_spec. simpl Nat.add.
    inversion Hnd as [|? ? Hc Hnd']; subst.
    destruct (0 <? blank_count c rows)%nat.
    + rewrite IH; [|exact Hnd'|].
      * rewrite set_fresh; [|apply Hfresh; left; reflexivity].
        rewrite <- app_assoc. reflexivity.
      * intros x Hx Hin. apply keys_set in Hin. destruct Hin as [->|Hin].
        -- contradiction.
        -- exact (Hfresh x (or_intror Hx) Hin).
    + apply IH; [exact Hnd'|]. intros x Hx. apply Hfresh. right. exact Hx.
Qed.

(** X11: when the keys of the first record are distinct, the missing-value
    mapping lists the columns with a blank cell in header order, each once,
    with its number of blank cells. *)
Theorem missing_values_in_header_order (r0 : record) (rest : list record) :
  NoDup (Dict.keys r0) ->
  missing_values (r0 :: rest)
  = map (fun c => (c, blank_count c (r0 :: rest)))
        (filter (fun c => (0 <? blank_count c (r0 :: rest))%nat) (Dict.keys r0))
  /\ Dict.keys (missing_values (r0 :: rest))
     = filter (fun c => (0 <? blank_count c (r0 :: rest))%nat) (Dict.keys r0)
  /\ NoDup (Dict.keys (missing_values (r0 :: rest))).
Proof.
  intros Hnd.
  assert (H : missing_values (r0 :: rest)
              = map (fun c => (c, blank_count c (r0 :: rest)))
                    (filter (fun c => (0 <? blank_count c (r0 :: rest))%nat)
                            (Dict.keys r0))).
  { unfold missing_values. rewrite missing_loop_fresh; [reflexivity|exact Hnd|].
    intros c _ []. }
  split; [exact H|].
  assert (Hk : Dict.keys (missing_values (r0 :: rest))
     = filter (fun c => (0 <? blank_count c (r0 :: rest))%nat) (Dict.keys r0)).
  { rewrite H. unfold Dict.keys at 1. rewrite map_map. apply map_id. }
  split; [exact Hk|]. rewrite Hk. apply NoDup_filter, Hnd.
Qed.

End RunFacts.

Section CategoricalSection.
Context {R : PyRuntime}.

Lemma report_without_categorical (file_name : string) (rows_count : nat)
    (numeric_cols : list string) (stats_map : Dict.t Stats.t)
    (cat_col : option string) (cat_top : option (string * nat))
    (missing : Dict.t nat) :
  truthy cat_col = false ->
  Forall (fun line => categorical_line line = false)
         (report_lines file_name rows_count numeric_cols stats_map cat_col
                       cat_top missing).
Proof.
  intros Hfalse. rewrite report_lines_sections.
  assert (Hsec : categorical_section cat_col cat_top = []).
  { unfold categorical_section. destruct cat_col; [rewrite Hfalse|]; reflexivity. }
  assert (Hnote : dominant_note cat_col cat_top = []).
  { unfold dominant_note. destruct cat_col, cat_top as [[v n]|];
      try rewrite Hfalse; reflexivity. }
  rewrite Hsec. unfold notes_section. rewrite Hnote.
  repeat (apply Forall_app; split).
  - unfold heading_section. repeat (constructor; [reflexivity|]). constructor.
  - unfold numeric_section. destruct numeric_cols as [|c0 cs].
    + repeat (constructor; [reflexivity|]). constructor.
    + constructor; [reflexivity|]. apply Forall_app. split.
      * apply summary_lines_not_categorical.
      * constructor; [reflexivity|constructor].
  - constructor.
  - apply missing_section_not_categorical.
  - destruct numeric_cols, missing;
      repeat (constructor; [reflexivity|]); constructor.
Qed.

(** X12: in the report [main] builds, a categorical column with a non-empty
    name always brings the line "Most frequent value in '{col}': {value} ({n}
    occurrences)" and the dominant-category note, with the result of
    [most_frequent]; a categorical column whose name is the empty string is
    treated as no column at all, and the report has no categorical line. *)
Theorem pipeline_categorical_section (file_name : string) (rows : list record) :
  match first_categorical_column rows (detect_numeric_columns rows) with
  | Some col =>
      if String.eqb col ""
      then Forall (fun line => categorical_line line = false)
                  (pipeline_lines file_name rows)
      else exists value n,
          most_frequent rows col = Some (value, n)
          /\ In ("Most frequent value in '" ++ col ++ "': " ++ value ++ " ("
                   ++ PyStr.of_nat n ++ " occurrences)")
                (pipeline_lines file_name rows)
          /\ In ("- '" ++ col ++ "' has a dominant category: " ++ value ++ ".")
                (pipeline_lines file_name rows)
  | None => Forall (fun line => categorical_line line = false)
                   (pipeline_lines file_name rows)
  end.
Proof.
  unfold pipeline_lines.
  destruct (first_categorical_column rows (detect_numeric_columns rows))
    as [col|] eqn:Ecol.
  - destruct (String.eqb col "") eqn:E.
    + apply report_without_categorical. simpl. rewrite E. reflexivity.
    + destruct (categorical_has_top rows col Ecol) as [_ [_ [_ [value [n Hmf]]]]].
      exists value, n. split; [exact Hmf|].
      rewrite report_lines_sections.
      unfold categorical_section, notes_section, dominant_note.
      cbn [truthy]. rewrite E. cbn [negb]. rewrite Hmf.
      split.
      * apply in_or_app. right. apply in_or_app. right.
        apply in_or_app. left. left. reflexivity.
      * apply in_or_app. right. apply in_or_app. right.
        apply in_or_app. right. apply in_or_app. right.
        right. apply in_or_app. right. apply in_or_app. left. left. reflexivity.
  - apply report_without_categorical. reflexivity.
Qed.

End CategoricalSection.

(** ** Cells of whitespace only *)

Section WhitespaceCells.

Context {R : PyRuntime}.

(** What the four operations return for a column in which one record holds a
    cell of whitespace only. *)
Lemma whitespace_cell_effects (before after : list record) (r : record)
    (c : string) :
  PyStr.all_space (raw_cell r c) = true ->
  let rows := (before ++ r :: after)%list in
  let others := (before ++ after)%list in
  let header := match rows with [] => [] | r0 :: _ => Dict.keys r0 end in
  blank_count c rows = S (blank_count c others)
  /\ (In c header ->
      Dict.get (missing_values rows) c = Some (S (blank_count c others)))
  /\ (In c (detect_numeric_columns rows) <->
      In c header /\ is_numeric_column others c = true)
  /\ parsed_values c rows = parsed_values c others
  /\ basic_stats rows c = basic_stats others c
  /\ (basic_stats rows c = None <->
      forall r', In r' others -> cell_value r' c = None)
  /\ (forall s, basic_stats rows c = Some s ->
                Stats.count s = List.length (parsed_values c others)
                /\ 0 < Stats.count s)
  /\ most_frequent rows c = most_frequent others c
  /\ (most_frequent rows c = None <->
      forall r', In r' others -> cell r' c = "")
  /\ (forall k n, most_frequent rows c = Some (k, n) ->
                  k <> "" /\ n = occurrences c k others).
Proof.
  intros Hspace rows others header.
  assert (Hcell : cell r c = "").
  { unfold cell. apply strip_empty_iff. exact Hspace. }
  assert (Hblank : blank_count c rows = S (blank_count c others)).
  { assert (Hone : blank_count c (r :: after) = S (blank_count c after)).
    { unfold blank_count. cbn [filter]. rewrite Hcell. reflexivity. }
    unfold rows, others. rewrite !blank_count_app, Hone. lia. }
  assert (Hparsed : parsed_values c rows = parsed_values c others).
  { assert (Hone : parsed_values c (r :: after) = parsed_values c after).
    { unfold parsed_values. cbn [flat_map]. unfold cell_value at 1.
      rewrite Hcell. reflexivity. }
    unfold rows, others. rewrite !parsed_values_app, Hone. reflexivity. }
  assert (Hstats : basic_stats rows c = basic_stats others c).
  { rewrite !basic_stats_unfold, Hparsed. reflexivity. }
  assert (Hfreq : most_frequent rows c = most_frequent others c).
  { assert (Hone : forall freq, freq_loop c (r :: after) freq
                                 = freq_loop c after freq).
    { intros freq. cbn [freq_loop]. rewrite Hcell. reflexivity. }
    unfold most_frequent, rows, others. rewrite !freq_loop_app, Hone.
    reflexivity. }
  split; [exact Hblank|]. split; [|split; [|split; [exact Hparsed|]]].
  - intros Hin. rewrite missing_values_get, Hblank.
    apply str_in_iff in Hin. fold header. rewrite Hin. reflexivity.
  - rewrite detect_numeric_columns_filter, filter_In. fold header.
    assert (Hnum : is_numeric_column rows c = is_numeric_column others c).
    { unfold is_numeric_column, rows, others. rewrite !forallb_app.
      cbn [forallb]. rewrite Hcell. reflexivity. }
    rewrite Hnum. tauto.
  - split; [exact Hstats|]. split; [|split].
    + rewrite Hstats, basic_stats_unfold, <- parsed_values_nil_iff.
      destruct (parsed_values c others); split; congruence.
    + intros s Hs. rewrite Hstats, basic_stats_unfold in Hs.
      destruct (parsed_values c others) as [|x xs]; [discriminate|].
      injection Hs as <-. simpl. split; [reflexivity|lia].
    + split; [exact Hfreq|]. split.
      * rewrite Hfreq. apply most_frequent_none_iff.
      * intros k n Hk. rewrite Hfreq in Hk.
        apply most_frequent_some in Hk. tauto.
Qed.

(** C9: every operation strips a cell before testing it, and a cell made of
    whitespace only is treated exactly like an empty cell.  For a column in
    which a record holds such a cell: [missing_values] counts that record as
    missing (the count it reports is one more than the blank cells of the
    other records); [detect_numeric_columns] classifies the column by the
    other records alone, so the cell never disqualifies it; [basic_stats]
    returns what it returns for the other records, its values and its count
    being theirs; [most_frequent] returns what it returns for the other
    records, so the cell is no value and adds to no count.  Replacing such
    cells by empty cells, or every cell by its stripped text, changes no
    result of the four operations. *)
Theorem whitespace_cells_are_empty (rows : list record) :
  (forall r c, PyStr.all_space (raw_cell r c) = true -> cell r c = "")
  /\ (forall r rest c,
        PyStr.all_space (raw_cell r c) = true ->
        column_ok c (r :: rest) = column_ok c rest
        /\ (forall vals, collect_vals c (r :: rest) vals = collect_vals c rest vals)
        /\ (forall cnt, count_missing c (r :: rest) cnt
                        = count_missing c rest (cnt + 1))
        /\ (forall freq, freq_loop c (r :: rest) freq = freq_loop c rest freq))
  /\ (detect_numeric_columns (map_cells blank_whitespace rows)
      = detect_numeric_columns rows
      /\ (forall col, basic_stats (map_cells blank_whitespace rows) col
                      = basic_stats rows col)
      /\ missing_values (map_cells blank_whitespace rows) = missing_values rows
      /\ (forall col, most_frequent (map_cells blank_whitespace rows) col
                      = most_frequent rows col))
  /\ (detect_numeric_columns (map_cells PyStr.strip rows)
      = detect_numeric_columns rows
      /\ (forall col, basic_stats (map_cells PyStr.strip rows) col
                      = basic_stats rows col)
      /\ missing_values (map_cells PyStr.strip rows) = missing_values rows
      /\ (forall col, most_frequent (map_cells PyStr.strip rows) col
                      = most_frequent rows col))
  /\ (forall before r after c,
        rows = (before ++ r :: after)%list ->
        PyStr.all_space (raw_cell r c) = true ->
        blank_count c rows = S (blank_count c (before ++ after)%list)
        /\ (In c (match rows with [] => [] | r0 :: _ => Dict.keys r0 end) ->
            Dict.get (missing_values rows) c
            = Some (S (blank_count c (before ++ after)%list)))
        /\ (In c (detect_numeric_columns rows) <->
            In c (match rows with [] => [] | r0 :: _ => Dict.keys r0 end)
            /\ is_numeric_column (before ++ after)%list c = true)
        /\ parsed_values c rows = parsed_values c (before ++ after)%list
        /\ basic_stats rows c = basic_stats (before ++ after)%list c
        /\ (basic_stats rows c = None <->
            forall r', In r' (before ++ after)%list -> cell_value r' c = None)
        /\ (forall s, basic_stats rows c = Some s ->
                      Stats.count s
                      = List.length (parsed_values c (before ++ after)%list)
                      /\ 0 < Stats.count s)
        /\ most_frequent rows c = most_frequent (before ++ after)%list c
        /\ (most_frequent rows c = None <->
            forall r', In r' (before ++ after)%list -> cell r' c = "")
        /\ (forall k n, most_frequent rows c = Some (k, n) ->
                        k <> "" /\ n = occurrences c k (before ++ after)%list)).
Proof.
  assert (Hcell : forall r c, PyStr.all_space (raw_cell r c) = true -> cell r c = "").
  { intros r c H. unfold cell. apply strip_empty_iff. exact H. }
  split; [exact Hcell|]. split; [|split; [|split]].
  - intros r rest c H. specialize (Hcell r c H).
    simpl. rewrite Hcell. simpl. repeat split; reflexivity.
  - apply operations_read_stripped_cells, strip_blank_whitespace.
  - apply operations_read_stripped_cells, strip_idempotent.
  - intros before r after c Hrows Hspace. subst rows.
    exact (whitespace_cell_effects before after r c Hspace).
Qed.

End WhitespaceCells.

(** * The model on concrete data *)

(** ** The builtins *)

Example float_accepts :
  map CPython.py_float [ "10"; " 2.5e-1 "; "1_000"; "-inf"; ".5"; "5."; "1e400" ]
  = map Some [ 10; 0.25; 1000; neg_infinity; 0.5; 5; infinity ]%float.
Proof. vm_compute. reflexivity. Qed.

Example float_rejects :
  map CPython.py_float [ ""; " "; "east"; "1e"; "1__0"; "0x10"; "1 2"; "." ]
  = [ None; None; None; None; None; None; None; None ].
Proof. vm_compute. reflexivity. Qed.

Example float_formats :
  map (fun s => option_map CPython.py_format_2f (CPython.py_float s))
      [ "15"; "0.125"; "2.675"; "-0.001"; "nan" ]
  = map Some [ "15.00"; "0.12"; "2.67"; "-0.00"; "nan" ]
  /\ map (fun s => option_map CPython.py_float_str (CPython.py_float s))
         [ "10"; "0.1"; "1e16"; "0.00001"; "1234.50"; "-0" ]
     = map Some [ "10.0"; "0.1"; "1e+16"; "1e-05"; "1234.5"; "-0.0" ].
Proof. split; vm_compute; reflexivity. Qed.

(** At a power of two the floats below lie closer than those above, and the
    shortest decimal that reads back is not the nearest one of its length:
    [2^-24] and [2^-44] print with 16 digits. *)
Example float_str_powers_of_two :
  map (fun s => option_map CPython.py_float_str (CPython.py_float s))
      [ "5.9604644775390625e-08"; "5.6843418860808015e-14"; "0.5";
        "9007199254740992"; "0.30000000000000004"; "0.10000000000000002" ]
  = map Some [ "5.960464477539063e-08"; "5.684341886080802e-14"; "0.5";
               "9007199254740992.0"; "0.30000000000000004";
               "0.10000000000000002" ].
Proof. vm_compute. reflexivity. Qed.

(** ** The scenarios of the specification *)

Example sales_loaded : load_csv (R := cpython) sales_csv = sales_rows.
Proof. vm_compute. reflexivity. Qed.

Example sales_numeric_columns :
  detect_numeric_columns (R := cpython) sales_rows = [ "amount" ].
Proof. vm_compute. reflexivity. Qed.

Example sales_amount_stats :
  basic_stats (R := cpython) sales_rows "amount"
  = Some {| Stats.avg := 15; Stats.min := 10; Stats.max := 20; Stats.count := 2 |}.
Proof. vm_compute. reflexivity. Qed.

Example sales_missing : missing_values sales_rows = [ ("amount", 1) ].
Proof. vm_compute. reflexivity. Qed.

Example sales_categorical :
  first_categorical_column sales_rows [ "amount" ] = Some "region"
  /\ most_frequent sales_rows "region" = Some ("east", 2).
Proof. split; vm_compute; reflexivity. Qed.

Example sales_pipeline :
  pipeline_text (R := cpython) "sales_data.csv" sales_rows = sales_report.
Proof. vm_compute. reflexivity. Qed.

Example sales_run :
  let end_state := main (R := cpython) "/app" sales_world in
  snd end_state = Returned
  /\ console (fst end_state)
     = [ "Loaded 3 rows."; "Report written to: /app/sample_output.txt" ]
  /\ fs (fst end_state) "/app/sample_output.txt" = Some (File sales_report).
Proof. repeat split; vm_compute; reflexivity. Qed.

Example header_only_pipeline :
  load_csv (R := cpython) ("region,amount" ++ nl) = []
  /\ detect_numeric_columns (R := cpython) [] = []
  /\ pipeline_text (R := cpython) "sales_data.csv" [] = empty_report.
Proof. repeat split; vm_compute; reflexivity. Qed.

Example all_empty_column :
  detect_numeric_columns (R := cpython) [ [("a", "")]; [("a", "")] ] = [ "a" ]
  /\ basic_stats (R := cpython) [ [("a", "")]; [("a", "")] ] "a" = None.
Proof. split; vm_compute; reflexivity. Qed.

(** A NaN among the values is below, above and equal to nothing. *)
Example nan_statistics :
  detect_numeric_columns (R := cpython) nan_rows = [ "x" ]
  /\ exists s, basic_stats (R := cpython) nan_rows "x" = Some s
               /\ PrimFloat.leb (Stats.min s) (Stats.max s) = false.
Proof. split; [vm_compute; reflexivity|]. eexists. split; vm_compute; reflexivity. Qed.

(** ** The claims that fail as stated *)

(** C1 as stated fails on a column whose only cell is one space: the column
    is classified numeric although that cell is not the empty string and
    [float] rejects it. *)
Lemma space_column_is_numeric :
  In "a" (detect_numeric_columns (R := cpython) space_rows)
  /\ every_nonempty_cell_parses (R := cpython) space_rows "a" = false.
Proof. split; [left; reflexivity|vm_compute; reflexivity]. Qed.

(** C2 as stated fails on three cells [0.1]: the column is numeric and has
    three values, yet the reported avg is above the reported max. *)
Lemma average_above_max :
  In "amount" (detect_numeric_columns (R := cpython) tenth_rows)
  /\ exists s, basic_stats (R := cpython) tenth_rows "amount" = Some s
               /\ 0 < Stats.count s
               /\ PrimFloat.leb (Stats.avg s) (Stats.max s) = false.
Proof.
  split; [left; reflexivity|]. eexists. split; [vm_compute; reflexivity|].
  split; [cbn; lia|vm_compute; reflexivity].
Qed.

(** C4 as stated fails twice.  In a column holding nan, 1 and 2 all three
    cells parse, and the reported min and max are both nan: the min is not
    at most 1 and the max is not at least 2, so they are not the minimum and
    maximum of the parsed values under the comparison of floats.  In a column
    holding 0.1 three times the three parsed values are one and the same
    float, whose arithmetic mean is that float, yet the reported average is
    strictly above it. *)
Lemma stats_not_mean_nor_bounds :
  (exists s, basic_stats (R := cpython) nan_first_rows "x" = Some s
             /\ parsed_values (R := cpython) "x" nan_first_rows
                = [PrimFloat.nan; 1%float; 2%float]
             /\ Stats.count s = 3
             /\ PrimFloat.is_nan (Stats.min s) = true
             /\ PrimFloat.is_nan (Stats.max s) = true
             /\ PrimFloat.leb (Stats.min s) 1%float = false
             /\ PrimFloat.leb 2%float (Stats.max s) = false)
  /\ (exists s v, basic_stats (R := cpython) tenth_rows "amount" = Some s
                  /\ parsed_values (R := cpython) "amount" tenth_rows = [v; v; v]
                  /\ Stats.count s = 3
                  /\ PrimFloat.eqb (Stats.avg s) v = false
                  /\ PrimFloat.ltb v (Stats.avg s) = true).
Proof.
  split.
  - eexists. split; [vm_compute; reflexivity|].
    repeat split; vm_compute; reflexivity.
  - eexists. eexists. split; [vm_compute; reflexivity|].
    split; [vm_compute; reflexivity|].
    repeat split; vm_compute; reflexivity.
Qed.

(** C3 as stated fails on a column whose only cell is one space: the column
    is reported with one missing value although none of its cells is the
    empty string. *)
Lemma space_cell_counted_missing :
  Dict.get (missing_values space_rows) "a" = Some 1
  /\ empty_string_count "a" space_rows = 0.
Proof. split; vm_compute; reflexivity. Qed.

(** ** The theorems at concrete inputs *)

(** The amount column of the sales records is classified numeric; its count
    is 3 - 1 and its min is at most its max. *)
Lemma numeric_column_stats_witness :
  In "amount" (detect_numeric_columns (R := cpython) sales_rows)
  /\ exists s, basic_stats (R := cpython) sales_rows "amount" = Some s
               /\ Stats.count s
                  = List.length sales_rows
                    - Dict.get_default (missing_values sales_rows) "amount" 0
               /\ PrimFloat.leb (Stats.min s) (Stats.max s) = true.
Proof.
  assert (Hin : In "amount" (detect_numeric_columns (R := cpython) sales_rows))
    by (left; reflexivity).
  split; [exact Hin|].
  pose proof (numeric_column_stats (R := cpython) sales_rows "amount" Hin) as [_ H].
  destruct (basic_stats (R := cpython) sales_rows "amount") as [s|] eqn:E.
  - exists s. split; [reflexivity|]. destruct H as [Hc [_ [_ [_ [_ Hb]]]]].
    split; [exact Hc|]. apply Hb.
    intros v Hv. vm_compute in Hv. destruct Hv as [<-|[<-|[]]]; reflexivity.
  - vm_compute in H. discriminate.
Defined.

(** A run in a world without files. *)
Lemma main_file_not_found_witness :
  fs empty_world (csv_path "/app") = None
  /\ main (R := cpython) "/app" empty_world
     = (print "File not found: /app/data/sales_data.csv" empty_world, Returned)
  /\ fs (fst (main (R := cpython) "/app" empty_world)) (out_path "/app") = None
  /\ exit_status (snd (main (R := cpython) "/app" empty_world)) = 0.
Proof.
  assert (Hmissing : fs empty_world (csv_path "/app") = None) by reflexivity.
  split; [exact Hmissing|].
  destruct (main_file_not_found (R := cpython) "/app" empty_world Hmissing)
    as [H1 [_ [_ [H4 [_ [H6 _]]]]]].
  split; [exact H1|]. split; [exact H4|exact H6].
Defined.

(** Later records that gain a column absent from the first record. *)
Lemma columns_come_from_first_record_witness :
  Forall2 (fun r r' => forall c, In c (Dict.keys first_record) ->
                                 raw_cell r c = raw_cell r' c)
          later_records later_records_wider
  /\ detect_numeric_columns (R := cpython) (first_record :: later_records)
     = detect_numeric_columns (R := cpython) (first_record :: later_records_wider)
  /\ missing_values (first_record :: later_records)
     = missing_values (first_record :: later_records_wider).
Proof.
  assert (H : Forall2 (fun r r' => forall c, In c (Dict.keys first_record) ->
                                             raw_cell r c = raw_cell r' c)
                      later_records later_records_wider).
  { repeat constructor; intros c [<-|[]]; reflexivity. }
  split; [exact H|].
  destruct (columns_come_from_first_record (R := cpython) first_record
              later_records later_records_wider H) as [[Ha [Hb _]] _].
  split; [exact Ha|exact Hb].
Defined.

(** ** Further examples *)

Example tie_goes_to_the_first_seen :
  most_frequent tie_rows "v" = Some ("b", 2)
  /\ occurrences "v" "a" tie_rows = 2.
Proof. split; vm_compute; reflexivity. Qed.

Example unnamed_column_is_skipped :
  first_categorical_column unnamed_rows
    (detect_numeric_columns (R := cpython) unnamed_rows) = Some ""
  /\ Forall (fun line => categorical_line line = false)
            (pipeline_lines (R := cpython) "sales_data.csv" unnamed_rows).
Proof.
  split; [vm_compute; reflexivity|].
  vm_compute. repeat (constructor; [reflexivity|]). constructor.
Qed.

Example blocked_run :
  main (R := cpython) "/app" blocked_world
  = ({| fs := fs blocked_world; console := [ "Loaded 3 rows." ] |},
     Raised "IsADirectoryError").
Proof. reflexivity. Qed.

(** A first data row with more fields than the header stops the run in the
    classification; a later row with surplus fields does not. *)
Example surplus_fields :
  main (R := cpython) "/app" (world_with ("a" ++ nl ++ "1,2" ++ nl))
  = ({| fs := fs (world_with ("a" ++ nl ++ "1,2" ++ nl));
        console := [ "Loaded 1 rows." ] |},
     Raised "AttributeError")
  /\ snd (main (R := cpython) "/app"
                (world_with ("a" ++ nl ++ "1" ++ nl ++ "2,3" ++ nl))) = Returned.
Proof. split; reflexivity. Qed.

(** Swapping the two later sales records. *)
Lemma record_order_is_irrelevant_witness :
  Permutation sales_later sales_later_swapped
  /\ detect_numeric_columns (R := cpython) (sales_first :: sales_later)
     = detect_numeric_columns (R := cpython) (sales_first :: sales_later_swapped)
  /\ missing_values (sales_first :: sales_later)
     = missing_values (sales_first :: sales_later_swapped).
Proof.
  assert (H : Permutation sales_later sales_later_swapped) by apply perm_swap.
  split; [exact H|].
  destruct (record_order_is_irrelevant (R := cpython) sales_first sales_later
              sales_later_swapped H) as [Ha [Hb _]].
  split; [exact Ha|exact Hb].
Defined.

(** A run on the sales data in a world that holds other files. *)
Lemma main_success_witness :
  fs busy_world (csv_path "/app") = Some (File sales_csv)
  /\ (exists raw, @csv_rows cpython sales_csv = inl raw)
  /\ first_row_has_surplus (R := cpython) sales_csv = false
  /\ fs busy_world (out_path "/app") <> Some Directory
  /\ snd (main (R := cpython) "/app" busy_world) = Returned
  /\ fs (fst (main (R := cpython) "/app" busy_world)) (out_path "/app")
     = Some (File (pipeline_text (R := cpython) "sales_data.csv"
                                 (load_csv (R := cpython) sales_csv)))
  /\ fs (fst (main (R := cpython) "/app" busy_world)) (csv_path "/app")
     = Some (File sales_csv).
Proof.
  assert (H1 : fs busy_world (csv_path "/app") = Some (File sales_csv))
    by reflexivity.
  assert (H2 : @csv_rows cpython sales_csv
               = inl (match CPython.plain_rows sales_csv with
                      | inl raw => raw
                      | inr _ => []
                      end)) by reflexivity.
  assert (H3 : first_row_has_surplus (R := cpython) sales_csv = false)
    by reflexivity.
  assert (H4 : fs busy_world (out_path "/app") <> Some Directory)
    by (vm_compute; discriminate).
  split; [exact H1|]. split; [eexists; exact H2|].
  split; [exact H3|]. split; [exact H4|].
  destruct (main_success (R := cpython) "/app" busy_world sales_csv _
              H1 H2 H3 H4) as [Ha [_ [Hb [_ Hc]]]].
  split; [exact Ha|]. split; [exact Hb|exact Hc].
Defined.

(** A run whose output path is a directory. *)
Lemma main_failure_witness :
  snd (main (R := cpython) "/app" blocked_world) = Raised "IsADirectoryError"
  /\ fs (fst (main (R := cpython) "/app" blocked_world)) = fs blocked_world.
Proof.
  assert (H : snd (main (R := cpython) "/app" blocked_world)
              = Raised "IsADirectoryError") by reflexivity.
  split; [exact H|].
  destruct (main_failure (R := cpython) "/app" blocked_world
              "IsADirectoryError" H) as [Hfs _].
  exact Hfs.
Defined.

(** The sales records have distinct column names. *)
Lemma missing_values_in_header_order_witness :
  NoDup (Dict.keys sales_first)
  /\ missing_values (sales_first :: sales_later)
     = map (fun c => (c, blank_count c (sales_first :: sales_later)))
           (filter (fun c => (0 <? blank_count c (sales_first :: sales_later))%nat)
                   (Dict.keys sales_first)).
Proof.
  assert (H : NoDup (Dict.keys sales_first)).
  { repeat constructor; simpl; intuition discriminate. }
  split; [exact H|].
  exact (proj1 (missing_values_in_header_order sales_first sales_later H)).
Defined.
